(** * py3status [external_script] module: a shallow embedding

    The development follows [py3status/modules/external_script.py]:
    the Python builtins the module calls ([str.splitlines], [str.strip],
    [int], [float], [re.search] on the colour pattern), then the class
    [Py3status] with its two methods [external_script] and [on_click],
    written in a small monad that threads the instance, the exceptions and
    the calls made on the [py3] helper. *)

From Stdlib Require Import ZArith QArith Ascii String List.
From stdpp Require Import base option list strings pretty gmap.

Set Warnings "-register-all".

Local Open Scope string_scope.
Local Open Scope Z_scope.
Local Open Scope list_scope.

(** ** Characters

    A Python [str] is modelled as a [string] of code points below 256
    (Latin-1); that range already holds every distinction the builtins
    below make between ASCII and non-ASCII white space. *)

Module Char.

Definition code (c : ascii) : N := N_of_ascii c.

Definition between (lo hi : N) (c : ascii) : bool :=
  ((lo <=? code c) && (code c <=? hi))%N.

(** [Py_UNICODE_ISSPACE]: what [str.strip()] removes. *)
Definition is_space (c : ascii) : bool :=
  between 9 13 c || between 28 32 c || (code c =? 133)%N || (code c =? 160)%N.

(** White space skipped by [int(str)] and [float(str)]: non-ASCII spaces
    are first mapped to [' '], then the C parser skips [Py_ISSPACE]
    characters, which leaves out the separators 0x1c..0x1f. *)
Definition is_number_space (c : ascii) : bool :=
  between 9 13 c || (code c =? 32)%N || (code c =? 133)%N || (code c =? 160)%N.

(** Line boundaries of [str.splitlines()]. *)
Definition is_linebreak (c : ascii) : bool :=
  between 10 13 c || between 28 30 c || (code c =? 133)%N.

Definition is_cr (c : ascii) : bool := (code c =? 13)%N.
Definition is_lf (c : ascii) : bool := (code c =? 10)%N.

Definition digit_value (c : ascii) : option N :=
  if between 48 57 c then Some (code c - 48)%N else None.

(** The class [[0-9a-fA-F]]. *)
Definition is_hex_digit (c : ascii) : bool :=
  between 48 57 c || between 97 102 c || between 65 70 c.

(** ASCII lower-casing, for the case-insensitive [inf] and [nan]. *)
Definition lower (c : ascii) : ascii :=
  if between 65 90 c then ascii_of_N (code c + 32) else c.

Definition lf : ascii := ascii_of_N 10.

End Char.

Arguments Char.is_space : simpl never.
Arguments Char.is_number_space : simpl never.
Arguments Char.is_linebreak : simpl never.
Arguments Char.is_cr : simpl never.
Arguments Char.is_lf : simpl never.
Arguments Char.digit_value : simpl never.
Arguments Char.is_hex_digit : simpl never.
Arguments Char.lower : simpl never.

(** ** String builtins *)

Module Str.

Fixpoint all (p : ascii -> bool) (s : string) : bool :=
  match s with
  | EmptyString => true
  | String c s' => p c && all p s'
  end.

Definition is_empty (s : string) : bool :=
  match s with EmptyString => true | String _ _ => false end.

Definition snoc (s : string) (c : ascii) : string := s +:+ String c EmptyString.

(** [str.splitlines()]: [cur] is the line being read. A line is closed
    by a boundary character, [\r\n] counting as one; a last line without
    a boundary is kept, and no empty line follows a final boundary. *)
Fixpoint splitlines_from (cur : string) (s : string) : list string :=
  match s with
  | EmptyString => if is_empty cur then [] else [cur]
  | String c s' =>
      if Char.is_linebreak c then
        cur :: match s' with
               | String c' s'' =>
                   if Char.is_cr c && Char.is_lf c'
                   then splitlines_from EmptyString s''
                   else splitlines_from EmptyString s'
               | EmptyString => splitlines_from EmptyString s'
               end
      else splitlines_from (snoc cur c) s'
  end.

Definition splitlines (s : string) : list string := splitlines_from EmptyString s.

Fixpoint lstrip_by (p : ascii -> bool) (s : string) : string :=
  match s with
  | EmptyString => EmptyString
  | String c s' => if p c then lstrip_by p s' else s
  end.

Fixpoint rstrip_by (p : ascii -> bool) (s : string) : string :=
  match s with
  | EmptyString => EmptyString
  | String c s' =>
      let r := rstrip_by p s' in
      if p c && is_empty r then EmptyString else String c r
  end.

Definition strip_by (p : ascii -> bool) (s : string) : string :=
  rstrip_by p (lstrip_by p s).

(** [str.strip()] *)
Definition strip (s : string) : string := strip_by Char.is_space s.

Definition lower (s : string) : string :=
  string_of_list_ascii (map Char.lower (list_ascii_of_string s)).

Definition no_linebreak (s : string) : bool :=
  all (fun c => negb (Char.is_linebreak c)) s.

End Str.

(** ** Values

    A Python [float] is carried as the exact rational its literal denotes:
    rounding to binary64 and the sign of zero are not represented. *)

Inductive pyfloat : Type :=
| FNan
| FInf (negative : bool)
| FFin (q : Q).

Inductive pyval : Type :=
| VNone
| VBool (b : bool)
| VInt (n : Z)
| VFloat (f : pyfloat)
| VStr (s : string)
| VList (l : list pyval)
| VDict (d : gmap string pyval).

(** ** Numeric literals: [int(str)] and [float(str)] *)

Module Num.

(** A run of decimal digits in which single underscores may stand between
    two digits. Returns the value, the number of digits and the rest. *)
Fixpoint digit_run_from (acc : N) (cnt : nat) (s : string) : N * nat * string :=
  match s with
  | EmptyString => (acc, cnt, s)
  | String c s' =>
      match Char.digit_value c with
      | Some d => digit_run_from (10 * acc + d) (S cnt) s'
      | None =>
          if Ascii.eqb c "_" then
            match s' with
            | String c' s'' =>
                match Char.digit_value c' with
                | Some d => digit_run_from (10 * acc + d) (S cnt) s''
                | None => (acc, cnt, s)
                end
            | EmptyString => (acc, cnt, s)
            end
          else (acc, cnt, s)
      end
  end.

Definition digit_run (s : string) : option (N * nat * string) :=
  match s with
  | String c s' =>
      match Char.digit_value c with
      | Some d => Some (digit_run_from d 1 s')
      | None => None
      end
  | EmptyString => None
  end.

(** An optional ['+'] or ['-']; [true] stands for a minus sign. *)
Definition sign (s : string) : bool * string :=
  match s with
  | String c s' =>
      if Ascii.eqb c "-" then (true, s')
      else if Ascii.eqb c "+" then (false, s')
      else (false, s)
  | EmptyString => (false, s)
  end.

Definition signed (negative : bool) (n : N) : Z :=
  if negative then - Z.of_N n else Z.of_N n.

(** The literal between the surrounding white space: sign, digits, end. *)
Definition int_body (s : string) : option Z :=
  let '(negative, s1) := sign s in
  match digit_run s1 with
  | Some (n, _, EmptyString) => Some (signed negative n)
  | _ => None
  end.

(** [int(s)] in base 10; [None] stands for [ValueError]. *)
Definition int_of_str (s : string) : option Z :=
  int_body (Str.strip_by Char.is_number_space s).

(** [m * 10 ^ e] as a rational. *)
Definition scale10 (m : Z) (e : Z) : Q :=
  match e with
  | Z0 => m # 1
  | Zpos p => (m * 10 ^ Zpos p) # 1
  | Zneg p => m # (10 ^ p)
  end.

(** The exponent part: [e] or [E], an optional sign, at least one digit. *)
Definition exponent (s : string) : option (Z * string) :=
  match s with
  | String c s' =>
      if Ascii.eqb (Char.lower c) "e" then
        let '(negative, s1) := sign s' in
        match digit_run s1 with
        | Some (n, _, rest) => Some (signed negative n, rest)
        | None => None
        end
      else None
  | EmptyString => Some (0, s)
  end.

(** Digits, an optional point and digits, at least one digit in all. *)
Definition mantissa (s : string) : option (N * nat * string) :=
  let '(ip, icnt, s1) :=
    match digit_run s with
    | Some r => r
    | None => (0%N, 0%nat, s)
    end in
  match s1 with
  | String c s2 =>
      if Ascii.eqb c "." then
        match digit_run s2 with
        | Some (fp, fcnt, s3) => Some ((ip * 10 ^ N.of_nat fcnt + fp)%N, fcnt, s3)
        | None => if Nat.eqb icnt 0 then None else Some (ip, 0%nat, s2)
        end
      else if Nat.eqb icnt 0 then None else Some (ip, 0%nat, s1)
  | EmptyString => if Nat.eqb icnt 0 then None else Some (ip, 0%nat, s1)
  end.

Definition float_body (s : string) : option pyfloat :=
  let '(negative, s1) := sign s in
  let w := Str.lower s1 in
  if String.eqb w "inf" || String.eqb w "infinity" then Some (FInf negative)
  else if String.eqb w "nan" then Some FNan
  else
    match mantissa s1 with
    | Some (m, fcnt, s2) =>
        match exponent s2 with
        | Some (e, EmptyString) =>
            Some (FFin (scale10 (signed negative m) (e - Z.of_nat fcnt)))
        | _ => None
        end
    | None => None
    end.

(** [float(s)]; [None] stands for [ValueError]. *)
Definition float_of_str (s : string) : option pyfloat :=
  float_body (Str.strip_by Char.is_number_space s).

End Num.

(** ** The colour pattern

    [re.search(r"^#[0-9a-fA-F]{6}$", s)]: without [re.MULTILINE] the
    anchor [^] holds at the start of [s] only, and [$] holds at the end of
    [s] and just before a newline that ends [s]. *)

Module Re.

(** [n] characters of the class [[0-9a-fA-F]], then the rest. *)
Fixpoint hex_digits (n : nat) (s : string) : option string :=
  match n with
  | O => Some s
  | S n' =>
      match s with
      | String c s' => if Char.is_hex_digit c then hex_digits n' s' else None
      | EmptyString => None
      end
  end.

Definition at_dollar (s : string) : bool :=
  match s with
  | EmptyString => true
  | String c EmptyString => Char.is_lf c
  | _ => false
  end.

Definition search_color (s : string) : bool :=
  match s with
  | String c s' =>
      if Ascii.eqb c "#" then
        match hex_digits 6 s' with
        | Some rest => at_dollar rest
        | None => false
        end
      else false
  | EmptyString => false
  end.

End Re.

(** ** The [py3] helper and the instance *)

(** [py3.CommandError]: the captured standard output and standard error,
    either of which may be [None]. *)
Record CommandError : Type := {
  ce_output : option string;
  ce_error : option string
}.

Inductive exn : Type :=
| AttributeError (name : string)
| IndexError
| ValueError
| JSONDecodeError
| CommandFailed (e : CommandError)
| ModuleErrorException (msg : option string)
| ConfigException (msg : string).

(** Calls made on the [py3] helper that act on the host. *)
Inductive call : Type :=
| py3_error (msg : option string)
| py3_notify_user (msg : string)
| py3_prevent_refresh.

(** What the module reads from its surroundings during one cycle: the
    result of [py3.command_output(script_path, shell=True, localized=...)],
    the clock, and [py3.safe_format]. *)
Record Py3 : Type := {
  command_output : option string -> bool -> string + CommandError;
  now : Q;
  safe_format : string -> gmap string pyval -> string
}.

(** The instance: the configuration parameters of the class and the
    attribute [output], which no class attribute initialises. *)
Record Py3status : Type := {
  button_show_notification : option Z;
  cache_timeout : Q;
  convert_numbers : bool;
  format : string;
  input_format : string;
  localize : bool;
  script_path : option string;
  strip_output : bool;
  output : option string
}.

Definition set_output (v : string) (self : Py3status) : Py3status :=
  {| button_show_notification := button_show_notification self;
     cache_timeout := cache_timeout self;
     convert_numbers := convert_numbers self;
     format := format self;
     input_format := input_format self;
     localize := localize self;
     script_path := script_path self;
     strip_output := strip_output self;
     output := Some v |}.

(** The class defaults, [script_path] being compulsory. *)
Definition defaults (path : string) : Py3status :=
  {| button_show_notification := None;
     cache_timeout := 15 # 1;
     convert_numbers := true;
     format := "{output}";
     input_format := "text";
     localize := true;
     script_path := Some path;
     strip_output := false;
     output := None |}.

Record event : Type := { button : Z }.

(** ** The monad of a method call

    A method runs on the instance, returns or raises, leaves the instance
    as it was at that point, and has made some calls on the host. *)

Inductive outcome (A : Type) : Type :=
| Return (a : A)
| Raise (e : exn).
Arguments Return {A} a.
Arguments Raise {A} e.

Definition M (A : Type) : Type := Py3status -> outcome A * Py3status * list call.

#[global] Instance M_ret : MRet M := fun A a self => (Return a, self, []).

#[global] Instance M_bind : MBind M := fun A B f m self =>
  match m self with
  | (Return a, self1, calls1) =>
      let '(r, self2, calls2) := f a self1 in (r, self2, calls1 ++ calls2)
  | (Raise e, self1, calls1) => (Raise e, self1, calls1)
  end.

Definition raise {A : Type} (e : exn) : M A := fun self => (Raise e, self, []).

(** [try: body except E: handler], where [handler e = None] when the
    exception is not an instance of [E]. *)
Definition try_except {A : Type} (body : M A) (handler : exn -> option (M A)) : M A :=
  fun self =>
    match body self with
    | (Return a, self1, calls1) => (Return a, self1, calls1)
    | (Raise e, self1, calls1) =>
        match handler e with
        | Some h => let '(r, self2, calls2) := h self1 in (r, self2, calls1 ++ calls2)
        | None => (Raise e, self1, calls1)
        end
    end.

Definition attr {A : Type} (field : Py3status -> A) : M A :=
  fun self => (Return (field self), self, []).

(** Reading [self.output] raises [AttributeError] while it is unset. *)
Definition get_output : M string :=
  fun self =>
    match output self with
    | Some v => (Return v, self, [])
    | None => (Raise (AttributeError "output"), self, [])
    end.

Definition assign_output (v : string) : M unit :=
  fun self => (Return tt, set_output v self, []).

Definition emit (c : call) : M unit := fun self => (Return tt, self, [c]).

Definition of_option {A : Type} (e : exn) (o : option A) : M A :=
  match o with
  | Some a => mret a
  | None => raise e
  end.

Definition except_ValueError {A : Type} (h : M A) (e : exn) : option (M A) :=
  match e with
  | ValueError => Some h
  | _ => None
  end.

Definition except_CommandError {A : Type} (h : CommandError -> M A) (e : exn) : option (M A) :=
  match e with
  | CommandFailed ce => Some (h ce)
  | _ => None
  end.

(** Python truth of an optional string, and [a or b]. *)
Definition truthy (o : option string) : bool :=
  match o with
  | Some s => negb (Str.is_empty s)
  | None => false
  end.

Definition py_or (a b : option string) : option string :=
  if truthy a then a else b.

(** [button == self.button_show_notification] *)
Definition button_eq (b : Z) (cfg : option Z) : bool :=
  match cfg with
  | Some b' => Z.eqb b b'
  | None => false
  end.

Definition STRING_ERROR_MISSING_PATH : string := "missing script_path".
Definition STRING_ERROR_INPUT_FORMAT : string := "invalid input format".

(** ** The class [Py3status] *)

Section Methods.

(** The host of one cycle, and [json.loads] ([None] for a document it
    rejects). *)
Variable py3 : Py3.
Variable json_loads : string -> option pyval.

(** Modelled from the spec: [py3.error] of py3status/py3.py, the
    error-reporting interface. It surfaces the text to the user and ends
    the cycle: no display item is produced, so the call does not return to
    the method but raises the module's error exception. *)
Definition error {A : Type} (msg : option string) : M A :=
  emit (py3_error msg) ;; raise (ModuleErrorException msg).

(** Modelled from the spec: [py3.time_in] of py3status/py3.py, the
    current time plus the given number of seconds. *)
Definition time_in (seconds : Q) : Q := (now py3 + seconds)%Q.

Definition notify_user (msg : string) : M unit := emit (py3_notify_user msg).
Definition prevent_refresh : M unit := emit py3_prevent_refresh.

Definition post_config_hook : M unit :=
  path ← attr script_path;
  if negb (truthy path) then raise (ConfigException STRING_ERROR_MISSING_PATH)
  else
    fmt ← attr input_format;
    if negb (String.eqb fmt "text" || String.eqb fmt "i3bar")
    then raise (ConfigException STRING_ERROR_INPUT_FORMAT)
    else mret tt.

(** [l[i]] *)
Definition index {A : Type} (l : list A) (i : nat) : M A :=
  of_option IndexError (l !! i).

Definition int_ (s : string) : M Z := of_option ValueError (Num.int_of_str s).
Definition float_ (s : string) : M pyfloat := of_option ValueError (Num.float_of_str s).

(** Lines 125 to 131: the two nested [try] blocks. *)
Definition convert (output : string) : M pyval :=
  try_except (n ← int_ output; mret (VInt n))
    (except_ValueError
       (try_except (f ← float_ output; mret (VFloat f))
          (except_ValueError (mret (VStr output))))).

(** Lines 113 to 133: the value bound to the local [output]. *)
Definition primary (output_lines : list string) : M pyval :=
  match output_lines with
  | _ :: _ =>
      output ← index output_lines 0;
      strip ← attr strip_output;
      let output := if strip : bool then Str.strip output else output in
      conv ← attr convert_numbers;
      if conv : bool then convert output else mret (VStr output)
  | [] => mret (VStr "")
  end.

(** Lines 93 to 100. *)
Definition run_command : M unit :=
  try_except
    (path ← attr script_path;
     localized ← attr localize;
     match command_output py3 path localized with
     | inl text => assign_output text
     | inr e => raise (CommandFailed e)
     end)
    (except_CommandError
       (fun e => let output := py_or (ce_output e) (ce_error e) in error output)).

(** Lines 107 to 111, on the [response] built so far. *)
Definition add_color (output_lines : list string) (response : gmap string pyval)
  : M (gmap string pyval) :=
  if (1 <? length output_lines)%nat then
    output_color ← index output_lines 1;
    if Re.search_color output_color
    then mret (<["color" := VStr output_color]> response)
    else mret response
  else mret response.

Definition external_script : M pyval :=
  run_command ;;
  fmt ← attr input_format;
  if String.eqb fmt "i3bar" then
    raw ← get_output;
    of_option JSONDecodeError (json_loads raw)
  else
    timeout ← attr cache_timeout;
    let response : gmap string pyval :=
      <["cached_until" := VFloat (FFin (time_in timeout))]> ∅ in
    raw ← get_output;
    let output_lines := Str.splitlines raw in
    response ← add_color output_lines response;
    output ← primary output_lines;
    template ← attr format;
    let values : gmap string pyval :=
      <["lines" := VInt (Z.of_nat (length output_lines))]> {["output" := output]} in
    mret (VDict (<["full_text" := VStr (safe_format py3 template values)]> response)).

Definition on_click (ev : event) : M unit :=
  let button := button ev in
  cfg ← attr button_show_notification;
  if button_eq button cfg then
    raw ← get_output;
    notify_user raw ;;
    prevent_refresh
  else mret tt.

End Methods.

(** ** Reference definitions, in the words of the specification *)

Module Spec.

(** The colour code of the data model: ['#'] and exactly six hexadecimal
    digits, nothing else. *)
Definition is_color_code (s : string) : bool :=
  match s with
  | String c h => Ascii.eqb c "#" && Nat.eqb (String.length h) 6 && Str.all Char.is_hex_digit h
  | EmptyString => false
  end.

(** The numeric normalizer: the first parse that succeeds, integer before
    floating point, else the text itself. *)
Definition normalize (text : string) : pyval :=
  match Num.int_of_str text with
  | Some n => VInt n
  | None =>
      match Num.float_of_str text with
      | Some f => VFloat f
      | None => VStr text
      end
  end.

(** The text the normalizer is given: line 1, trimmed when strip-output
    is enabled. *)
Definition primary_text (strip : bool) (line : string) : string :=
  if strip then Str.strip line else line.

(** The value handed to the template under the name [output]. *)
Definition primary_value (self : Py3status) (output_lines : list string) : pyval :=
  match output_lines with
  | line :: _ =>
      let text := primary_text (strip_output self) line in
      if convert_numbers self then normalize text else VStr text
  | [] => VStr ""
  end.

(** Line 2, when there is one and it matches the pattern, becomes the
    colour of the item. *)
Definition colored (output_lines : list string) (response : gmap string pyval)
  : gmap string pyval :=
  match output_lines with
  | _ :: line2 :: _ =>
      if Re.search_color line2 then <["color" := VStr line2]> response else response
  | _ => response
  end.

(** The diagnostic text of a failed command: the captured standard output
    when it is present and not empty, else the captured standard error. *)
Definition diagnostic (e : CommandError) : option string :=
  match ce_output e with
  | Some (String c s) => Some (String c s)
  | _ => ce_error e
  end.

(** The options the i3bar mode leaves aside. *)
Definition with_options (template : string) (localized strip convert : bool)
    (notification_button : option Z) (self : Py3status) : Py3status :=
  {| button_show_notification := notification_button;
     cache_timeout := cache_timeout self;
     convert_numbers := convert;
     format := template;
     input_format := input_format self;
     localize := localized;
     script_path := script_path self;
     strip_output := strip;
     output := output self |}.

End Spec.

(** ** A host and a JSON reader for the worked examples *)

Module Json.

Definition quote : ascii := ascii_of_N 34.
Definition backslash : ascii := ascii_of_N 92.

Definition is_ws (c : ascii) : bool :=
  (Char.code c =? 32)%N || (Char.code c =? 9)%N || (Char.code c =? 10)%N || (Char.code c =? 13)%N.

Definition skip_ws (s : string) : string := Str.lstrip_by is_ws s.

(** The characters of a string up to its closing quote; escapes and
    control characters lie outside the fragment. *)
Fixpoint string_chars (acc : string) (s : string) : option (string * string) :=
  match s with
  | EmptyString => None
  | String c s' =>
      if Ascii.eqb c quote then Some (acc, s')
      else if Ascii.eqb c backslash || (Char.code c <? 32)%N then None
      else string_chars (Str.snoc acc c) s'
  end.

Definition string_lit (s : string) : option (string * string) :=
  match s with
  | String c s' => if Ascii.eqb c quote then string_chars EmptyString s' else None
  | EmptyString => None
  end.

Fixpoint plain_digits (acc : N) (cnt : nat) (s : string) : N * nat * string :=
  match s with
  | EmptyString => (acc, cnt, s)
  | String c s' =>
      match Char.digit_value c with
      | Some d => plain_digits (10 * acc + d) (S cnt) s'
      | None => (acc, cnt, s)
      end
  end.

(** An optional minus sign, then a lone zero or digits that do not start
    with zero; no fraction and no exponent may follow. *)
Definition int_lit (s : string) : option (Z * string) :=
  let '(negative, s1) :=
    match s with
    | String c s' => if Ascii.eqb c "-" then (true, s') else (false, s)
    | EmptyString => (false, s)
    end in
  match s1, plain_digits 0 0 s1 with
  | String c0 _, (n, cnt, rest) =>
      if Nat.eqb cnt 0 || (Ascii.eqb c0 "0" && negb (Nat.eqb cnt 1)) then None
      else
        match rest with
        | String c _ =>
            if Ascii.eqb c "." || Ascii.eqb (Char.lower c) "e" then None
            else Some (Num.signed negative n, rest)
        | EmptyString => Some (Num.signed negative n, rest)
        end
  | EmptyString, _ => None
  end.

Definition value (s : string) : option (pyval * string) :=
  match string_lit s with
  | Some (v, rest) => Some (VStr v, rest)
  | None =>
      match int_lit s with
      | Some (n, rest) => Some (VInt n, rest)
      | None => None
      end
  end.

(** The members of an object after its opening brace; a later member of
    the same name replaces an earlier one. *)
Fixpoint members (fuel : nat) (acc : gmap string pyval) (s : string)
  : option (gmap string pyval * string) :=
  match fuel with
  | O => None
  | S fuel' =>
      match string_lit (skip_ws s) with
      | Some (k, s1) =>
          match skip_ws s1 with
          | String c s2 =>
              if Ascii.eqb c ":" then
                match value (skip_ws s2) with
                | Some (v, s3) =>
                    match skip_ws s3 with
                    | String c' s4 =>
                        if Ascii.eqb c' "," then members fuel' (<[k := v]> acc) s4
                        else if Ascii.eqb c' "}" then Some (<[k := v]> acc, s4)
                        else None
                    | EmptyString => None
                    end
                | None => None
                end
              else None
          | EmptyString => None
          end
      | None => None
      end
  end.

(** [json.loads] on the fragment of the examples: one object whose
    members are unescaped strings and integers. *)
Definition loads (s : string) : option pyval :=
  match skip_ws s with
  | String c s1 =>
      if Ascii.eqb c "{" then
        match skip_ws s1 with
        | String c' s2 =>
            if Ascii.eqb c' "}" then
              if Str.is_empty (skip_ws s2) then Some (VDict ∅) else None
            else
              match members (String.length s1) ∅ s1 with
              | Some (d, rest) => if Str.is_empty (skip_ws rest) then Some (VDict d) else None
              | None => None
              end
        | EmptyString => None
        end
      else None
  | EmptyString => None
  end.

Definition quoted (s : string) : string := String quote (s +:+ String quote EmptyString).

(** The document [{"full_text": "x"}]. *)
Definition doc_full_text (text : string) : string :=
  "{" +:+ quoted "full_text" +:+ ": " +:+ quoted text +:+ "}".

End Json.

Module Template.

Definition text_of (v : pyval) : option string :=
  match v with
  | VStr s => Some s
  | VInt n => Some (pretty n)
  | _ => None
  end.

Definition placeholder (name : string) : string := "{" +:+ name +:+ "}".

Definition expands (name : string) (values : gmap string pyval) (s : string) : option string :=
  if String.prefix (placeholder name) s then values !! name ≫= text_of else None.

(** Substitution of the placeholders [{output}] and [{lines}] by the
    text of a string or an integer; [skip] counts the characters of a
    placeholder still to be passed over. *)
Fixpoint render_from (values : gmap string pyval) (skip : nat) (s : string) : string :=
  match s with
  | EmptyString => EmptyString
  | String c s' =>
      match skip with
      | S k => render_from values k s'
      | O =>
          match expands "output" values s, expands "lines" values s with
          | Some t, _ => t +:+ render_from values 7 s'
          | None, Some t => t +:+ render_from values 6 s'
          | None, None => String c (render_from values 0 s')
          end
      end
  end.

Definition render (template : string) (values : gmap string pyval) : string :=
  render_from values 0 template.

End Template.

(** A host whose command gives [result] at time [t]. *)
Definition host (result : string + CommandError) (t : Q) : Py3 :=
  {| command_output := fun _ _ => result;
     now := t;
     safe_format := Template.render |}.

Definition configured (mode : string) (notification_button : option Z) (strip : bool)
    (saved : option string) : Py3status :=
  {| button_show_notification := notification_button;
     cache_timeout := 15 # 1;
     convert_numbers := true;
     format := "{output}";
     input_format := mode;
     localize := true;
     script_path := Some "/usr/bin/whoami";
     strip_output := strip;
     output := saved |}.

(** ** Further reference definitions *)

Module Text.

(** What a script prints when it writes each line followed by a newline. *)
Fixpoint unlines (lines : list string) : string :=
  match lines with
  | [] => EmptyString
  | line :: rest => line +:+ String Char.lf (unlines rest)
  end.

(** The last character of [s] is a line boundary. *)
Fixpoint ends_with_linebreak (s : string) : bool :=
  match s with
  | EmptyString => false
  | String c s' =>
      match s' with
      | EmptyString => Char.is_linebreak c
      | String _ _ => ends_with_linebreak s'
      end
  end.

(** The first, and the last, character of [s] satisfies [p]. *)
Definition first_is (p : ascii -> bool) (s : string) : bool :=
  match s with
  | EmptyString => false
  | String c _ => p c
  end.

Fixpoint last_is (p : ascii -> bool) (s : string) : bool :=
  match s with
  | EmptyString => false
  | String c s' =>
      match s' with
      | EmptyString => p c
      | String _ _ => last_is p s'
      end
  end.

Definition is_digit (c : ascii) : bool :=
  match Char.digit_value c with
  | Some _ => true
  | None => false
  end.

(** No character of [s] is white space. *)
Definition no_space (s : string) : bool :=
  Str.all (fun c => negb (Char.is_space c)) s.

(** The separators 0x1c to 0x1f: white space for [str.strip], not for
    [int] and [float]. *)
Definition is_separator (c : ascii) : bool :=
  Char.is_space c && negb (Char.is_number_space c).

End Text.

(** The instance with another stored raw output, and with another mode. *)
Definition with_output (saved : option string) (self : Py3status) : Py3status :=
  {| button_show_notification := button_show_notification self;
     cache_timeout := cache_timeout self;
     convert_numbers := convert_numbers self;
     format := format self;
     input_format := input_format self;
     localize := localize self;
     script_path := script_path self;
     strip_output := strip_output self;
     output := saved |}.

Definition with_input_format (mode : string) (self : Py3status) : Py3status :=
  {| button_show_notification := button_show_notification self;
     cache_timeout := cache_timeout self;
     convert_numbers := convert_numbers self;
     format := format self;
     input_format := mode;
     localize := localize self;
     script_path := script_path self;
     strip_output := strip_output self;
     output := output self |}.

(** The item of a text-mode cycle whose command printed [raw]. *)
Definition text_item (py3 : Py3) (self : Py3status) (raw : string) : gmap string pyval :=
  <["full_text" :=
      VStr (safe_format py3 (format self)
              (<["lines" := VInt (Z.of_nat (length (Str.splitlines raw)))]>
                 {["output" := Spec.primary_value self (Str.splitlines raw)]}))]>
    (Spec.colored (Str.splitlines raw)
       (<["cached_until" := VFloat (FFin (time_in py3 (cache_timeout self)))]> ∅)).

(** Inputs of the worked examples. *)
Definition two_lines : string := "12" +:+ String Char.lf "#FF0000".

Definition denied : CommandError :=
  {| ce_output := None; ce_error := Some "permission denied" |}.

Definition text_instance : Py3status := configured "text" None false None.
Definition i3bar_instance : Py3status := configured "i3bar" None false None.

(** An instance with button 1 configured for the notification, holding
    the raw output [saved]. *)
Definition clickable (saved : option string) : Py3status :=
  configured "text" (Some 1) false saved.

(** Further inputs: a text-mode instance that trims, one that trims and
    does not convert, one without a script path, and a text that is not a
    JSON document. *)
Definition trimming_instance : Py3status := configured "text" None true None.

Definition plain_instance : Py3status :=
  Spec.with_options "{output}" true true false None text_instance.

Definition pathless_instance : Py3status :=
  {| button_show_notification := None;
     cache_timeout := 15 # 1;
     convert_numbers := true;
     format := "{output}";
     input_format := "text";
     localize := true;
     script_path := None;
     strip_output := false;
     output := None |}.

Definition not_json : string := "status: ok".

Definition three_lines (third : string) : string :=
  "12" +:+ String Char.lf ("#FF0000" +:+ String Char.lf third).

(** A host whose command prints the weekday in the language of the user
    when it is run localized, and in English otherwise; an i3bar instance
    with [localize] disabled, and one with button 1 for the notification. *)
Definition locale_host : Py3 :=
  {| command_output := fun _ localized =>
       inl (Json.doc_full_text (if localized : bool then "Montag" else "Monday"));
     now := 0;
     safe_format := Template.render |}.

Definition unlocalized_i3bar_instance : Py3status :=
  Spec.with_options "{output}" false false true None i3bar_instance.

Definition clickable_i3bar : Py3status := configured "i3bar" (Some 1) false None.

(** The text [42] followed by the separator 0x1f. *)
Definition separated_number : string := "42" +:+ String (ascii_of_N 31) EmptyString.

(** ** Worked examples of the builtins and of a cycle *)

Example splitlines_two : Str.splitlines ("12" +:+ String Char.lf "#FF0000") = ["12"; "#FF0000"].
Proof. reflexivity. Qed.

Example splitlines_crlf :
  Str.splitlines ("a" +:+ String (ascii_of_N 13) (String Char.lf ("" +:+ String Char.lf "b")))
  = ["a"; ""; "b"].
Proof. reflexivity. Qed.

Example splitlines_final_newline : Str.splitlines (String Char.lf "") = [""].
Proof. reflexivity. Qed.

Example strip_example : Str.strip (" 42" +:+ String (ascii_of_N 31) " ") = "42".
Proof. reflexivity. Qed.

Example int_42 : Num.int_of_str "42" = Some 42.
Proof. reflexivity. Qed.

Example int_padded : Num.int_of_str " 42 " = Some 42.
Proof. reflexivity. Qed.

Example int_underscore : Num.int_of_str "-1_000" = Some (-1000).
Proof. reflexivity. Qed.

Example int_rejects :
  map Num.int_of_str ["3.14"; "abc"; ""; "+"; "1_"; "_1"; "1__0"; "- 1"; "1 2"; "0x10";
                      "42" +:+ String (ascii_of_N 31) ""]
  = [None; None; None; None; None; None; None; None; None; None; None].
Proof. reflexivity. Qed.

Example float_314 : Num.float_of_str "3.14" = Some (FFin (314 # 100)).
Proof. reflexivity. Qed.

Example float_accepts :
  map Num.float_of_str [" +.5e-3 "; "1."; "1e1_0"; "1_0.5_0"; "-Infinity"; "NaN"; "1E2"]
  = [Some (FFin (5 # 10000)); Some (FFin (1 # 1)); Some (FFin (10000000000 # 1));
     Some (FFin (1050 # 100)); Some (FInf true); Some FNan; Some (FFin (100 # 1))].
Proof. reflexivity. Qed.

Example float_rejects :
  map Num.float_of_str ["abc"; "."; "1e"; "1e+"; "._5"; "1_e5"; "1.5."; "infi"; "nan_"; "e5"; ""; "1e 5"]
  = [None; None; None; None; None; None; None; None; None; None; None; None].
Proof. reflexivity. Qed.

Example search_color_examples :
  map Re.search_color ["#FF0000"; "#ff00aA"; "#FF000"; "#FF00000"; "FF0000"; "#GG0000"; " #FF0000";
                       "#FF0000" +:+ String Char.lf ""]
  = [true; true; false; false; false; false; false; true].
Proof. reflexivity. Qed.

Example json_loads_example :
  Json.loads (Json.doc_full_text "x") = Some (VDict {[ "full_text" := VStr "x" ]}).
Proof. vm_compute. reflexivity. Qed.

Example render_example :
  Template.render "my name is {output} ({lines})" (<["lines" := VInt 1]> {["output" := VStr "root"]})
  = "my name is root (1)".
Proof. vm_compute. reflexivity. Qed.

Example scenario_whoami :
  external_script (host (inl "root") 0) Json.loads
    (Spec.with_options "my name is {output}" true false true None (defaults "whoami"))
  = (Return (VDict (<["full_text" := VStr "my name is root"]>
                      (<["cached_until" := VFloat (FFin (0 + 15))]> ∅))),
     set_output "root" (Spec.with_options "my name is {output}" true false true None (defaults "whoami")),
     []).
Proof. vm_compute. reflexivity. Qed.

(** ** Facts about the string builtins *)

Section StringFacts.

Lemma is_lf_linebreak (c : ascii) : Char.is_lf c = true -> Char.is_linebreak c = true.
Proof.
  unfold Char.is_lf, Char.is_linebreak, Char.between.
  intros H. apply N.eqb_eq in H. rewrite H. reflexivity.
Qed.

Lemma all_snoc (p : ascii -> bool) (s : string) (c : ascii) :
  Str.all p (Str.snoc s c) = Str.all p s && p c.
Proof.
  unfold Str.snoc. induction s as [|c' s IH]; simpl.
  - destruct (p c); reflexivity.
  - rewrite IH. destruct (p c'); reflexivity.
Qed.

(** No line of [splitlines] holds a line boundary. *)
Lemma splitlines_from_no_linebreak (n : nat) :
  forall (s cur : string),
    (String.length s <= n)%nat ->
    Str.no_linebreak cur = true ->
    Forall (fun line => Str.no_linebreak line = true) (Str.splitlines_from cur s).
Proof.
  induction n as [|n IH]; intros s cur Hlen Hcur.
  - destruct s as [|c s']; simpl in *; [| lia].
    destruct (Str.is_empty cur); constructor; auto.
  - destruct s as [|c s']; simpl in *.
    + destruct (Str.is_empty cur); constructor; auto.
    + destruct (Char.is_linebreak c) eqn:Hc.
      * constructor; [exact Hcur |].
        destruct s' as [|c' s'']; [constructor |].
        destruct (Char.is_cr c && Char.is_lf c'); apply IH; simpl in *; try lia; reflexivity.
      * apply IH; [lia |].
        unfold Str.no_linebreak in *. rewrite all_snoc, Hcur, Hc. reflexivity.
Qed.

Lemma splitlines_no_linebreak (s : string) :
  Forall (fun line => Str.no_linebreak line = true) (Str.splitlines s).
Proof. apply (splitlines_from_no_linebreak (String.length s)); [lia | reflexivity]. Qed.

Lemma hex_digits_exact (n : nat) :
  forall h : string,
    Str.no_linebreak h = true ->
    match Re.hex_digits n h with
    | Some rest => Re.at_dollar rest
    | None => false
    end = Nat.eqb (String.length h) n && Str.all Char.is_hex_digit h.
Proof.
  unfold Str.no_linebreak.
  induction n as [|n IH]; intros h Hh.
  - destruct h as [|c [|c' h']]; simpl in *; try reflexivity.
    destruct (Char.is_lf c) eqn:Hlf; [| reflexivity].
    apply is_lf_linebreak in Hlf. rewrite Hlf in Hh. discriminate.
  - destruct h as [|c h']; simpl in *; [reflexivity |].
    destruct (Char.is_linebreak c); [discriminate |]. simpl in Hh.
    destruct (Char.is_hex_digit c); simpl.
    + apply IH, Hh.
    + rewrite andb_false_r. reflexivity.
Qed.

(** On a line of [splitlines] the search succeeds exactly on a colour
    code: the newline that [$] tolerates cannot occur. *)
Lemma search_color_exact (line : string) :
  Str.no_linebreak line = true ->
  Re.search_color line = Spec.is_color_code line.
Proof.
  intros Hline. destruct line as [|c h]; [reflexivity |].
  assert (Hh : Str.no_linebreak h = true).
  { unfold Str.no_linebreak in *. simpl in Hline.
    apply andb_true_iff in Hline. apply Hline. }
  unfold Re.search_color, Spec.is_color_code.
  destruct (Ascii.eqb c "#"); [| reflexivity].
  rewrite (hex_digits_exact 6 h Hh). reflexivity.
Qed.

Lemma lstrip_by_all (p : ascii -> bool) (s : string) :
  Str.all p s = true -> Str.lstrip_by p s = EmptyString.
Proof.
  induction s as [|c s IH]; simpl; [reflexivity |].
  destruct (p c); [exact IH | discriminate].
Qed.

Lemma rstrip_by_all (p : ascii -> bool) (s : string) :
  Str.all p s = true -> Str.rstrip_by p s = EmptyString.
Proof.
  induction s as [|c s IH]; simpl; [reflexivity |].
  destruct (p c); [| discriminate]. intros H. rewrite (IH H). reflexivity.
Qed.

Lemma lstrip_by_pad (p : ascii -> bool) (pre s : string) :
  Str.all p pre = true -> Str.lstrip_by p (pre +:+ s) = Str.lstrip_by p s.
Proof.
  induction pre as [|c pre IH]; simpl; [reflexivity |].
  destruct (p c); [exact IH | discriminate].
Qed.

Lemma rstrip_by_pad (p : ascii -> bool) (s post : string) :
  Str.all p post = true -> Str.rstrip_by p (s +:+ post) = Str.rstrip_by p s.
Proof.
  intros Hpost. induction s as [|c s IH]; simpl.
  - apply rstrip_by_all, Hpost.
  - rewrite IH. reflexivity.
Qed.

(** White space around a text does not change what is left after
    stripping it. *)
Lemma strip_by_pad (p : ascii -> bool) (pre s post : string) :
  Str.all p pre = true -> Str.all p post = true ->
  Str.strip_by p (pre +:+ s +:+ post) = Str.strip_by p s.
Proof.
  intros Hpre Hpost. unfold Str.strip_by. rewrite (lstrip_by_pad _ _ _ Hpre).
  induction s as [|c s IH]; simpl.
  - change (EmptyString +:+ post) with post. rewrite (lstrip_by_all _ _ Hpost). reflexivity.
  - destruct (p c); [exact IH |].
    apply (rstrip_by_pad p (String c s) post Hpost).
Qed.

Lemma int_of_str_pad (pre s post : string) :
  Str.all Char.is_number_space pre = true ->
  Str.all Char.is_number_space post = true ->
  Num.int_of_str (pre +:+ s +:+ post) = Num.int_of_str s.
Proof. intros Hpre Hpost. unfold Num.int_of_str. rewrite strip_by_pad; auto. Qed.

Lemma float_of_str_pad (pre s post : string) :
  Str.all Char.is_number_space pre = true ->
  Str.all Char.is_number_space post = true ->
  Num.float_of_str (pre +:+ s +:+ post) = Num.float_of_str s.
Proof. intros Hpre Hpost. unfold Num.float_of_str. rewrite strip_by_pad; auto. Qed.

End StringFacts.

(** ** Properties of the methods *)

Ltac run_method :=
  unfold external_script, on_click, run_command, add_color, primary, convert, int_, float_,
    error, notify_user, prevent_refresh, index, of_option, except_ValueError,
    except_CommandError, try_except, get_output, assign_output, emit, attr, raise,
    mbind, M_bind, mret, M_ret; simpl.

Section Properties.

Variable py3 : Py3.
Variable json_loads : string -> option pyval.

Lemma py_or_diagnostic (e : CommandError) :
  py_or (ce_output e) (ce_error e) = Spec.diagnostic e.
Proof.
  unfold py_or, Spec.diagnostic, truthy.
  destruct (ce_output e) as [[|c s]|]; reflexivity.
Qed.

Lemma run_command_success (self : Py3status) (raw : string) :
  command_output py3 (script_path self) (localize self) = inl raw ->
  run_command py3 self = (Return tt, set_output raw self, []).
Proof. intros Hcmd. run_method. rewrite Hcmd. reflexivity. Qed.

Lemma run_command_failure (self : Py3status) (e : CommandError) :
  command_output py3 (script_path self) (localize self) = inr e ->
  run_command py3 self
  = (Raise (ModuleErrorException (Spec.diagnostic e)), self, [py3_error (Spec.diagnostic e)]).
Proof.
  intros Hcmd. run_method. rewrite Hcmd. simpl.
  rewrite py_or_diagnostic. reflexivity.
Qed.

Lemma external_script_failure (self : Py3status) (e : CommandError) :
  command_output py3 (script_path self) (localize self) = inr e ->
  external_script py3 json_loads self
  = (Raise (ModuleErrorException (Spec.diagnostic e)), self, [py3_error (Spec.diagnostic e)]).
Proof.
  intros Hcmd. unfold external_script.
  unfold mbind at 1. unfold M_bind.
  rewrite (run_command_failure _ _ Hcmd). reflexivity.
Qed.

Lemma convert_normalize (text : string) (self : Py3status) :
  convert text self = (Return (Spec.normalize text), self, []).
Proof.
  run_method. unfold Spec.normalize.
  destruct (Num.int_of_str text); simpl; [reflexivity |].
  destruct (Num.float_of_str text); reflexivity.
Qed.

Lemma primary_value_ok (output_lines : list string) (self : Py3status) :
  primary output_lines self = (Return (Spec.primary_value self output_lines), self, []).
Proof.
  destruct output_lines as [|line rest]; [reflexivity |].
  unfold primary, Spec.primary_value, index, of_option, attr, mbind, M_bind, mret, M_ret.
  simpl. destruct (convert_numbers self); [| reflexivity].
  rewrite convert_normalize. reflexivity.
Qed.

Lemma add_color_ok (output_lines : list string) (response : gmap string pyval)
    (self : Py3status) :
  add_color output_lines response self
  = (Return (Spec.colored output_lines response), self, []).
Proof.
  destruct output_lines as [|line1 [|line2 rest]]; try reflexivity.
  run_method. destruct (Re.search_color line2); reflexivity.
Qed.

(** A cycle in text mode whose command succeeds. *)
Lemma external_script_text (self : Py3status) (raw : string) :
  String.eqb (input_format self) "i3bar" = false ->
  command_output py3 (script_path self) (localize self) = inl raw ->
  external_script py3 json_loads self
  = (Return
       (VDict
          (<["full_text" :=
               VStr (safe_format py3 (format self)
                       (<["lines" := VInt (Z.of_nat (length (Str.splitlines raw)))]>
                          {["output" := Spec.primary_value self (Str.splitlines raw)]}))]>
             (Spec.colored (Str.splitlines raw)
                (<["cached_until" := VFloat (FFin (time_in py3 (cache_timeout self)))]> ∅)))),
     set_output raw self, []).
Proof.
  intros Hmode Hcmd. unfold external_script.
  unfold mbind at 1. unfold M_bind at 1.
  rewrite (run_command_success _ _ Hcmd).
  unfold attr, get_output, mbind, M_bind. simpl. rewrite Hmode. simpl.
  rewrite add_color_ok, primary_value_ok. reflexivity.
Qed.

(** A cycle in i3bar mode whose command succeeds. *)
Lemma external_script_i3bar (self : Py3status) (raw : string) :
  input_format self = "i3bar" ->
  command_output py3 (script_path self) (localize self) = inl raw ->
  external_script py3 json_loads self
  = (match json_loads raw with
     | Some item => Return item
     | None => Raise JSONDecodeError
     end, set_output raw self, []).
Proof.
  intros Hmode Hcmd. unfold external_script.
  unfold mbind at 1. unfold M_bind at 1.
  rewrite (run_command_success _ _ Hcmd).
  unfold attr, get_output, mbind, M_bind. simpl. rewrite Hmode. simpl.
  destruct (json_loads raw); reflexivity.
Qed.

Lemma on_click_configured (self : Py3status) (ev : event) (raw : string) :
  button_show_notification self = Some (button ev) ->
  output self = Some raw ->
  on_click ev self = (Return tt, self, [py3_notify_user raw; py3_prevent_refresh]).
Proof.
  intros Hbtn Hout. run_method. rewrite Hbtn. unfold button_eq.
  rewrite Z.eqb_refl. rewrite Hout. reflexivity.
Qed.

Lemma on_click_other (self : Py3status) (ev : event) :
  button_show_notification self <> Some (button ev) ->
  on_click ev self = (Return tt, self, []).
Proof.
  intros Hbtn. run_method. unfold button_eq.
  destruct (button_show_notification self) as [b |]; [| reflexivity].
  destruct (Z.eqb_spec (button ev) b) as [Heq | Hne]; [| reflexivity].
  subst b. contradiction.
Qed.

Lemma on_click_unset (self : Py3status) (ev : event) :
  button_show_notification self = Some (button ev) ->
  output self = None ->
  on_click ev self = (Raise (AttributeError "output"), self, []).
Proof.
  intros Hbtn Hout. run_method. rewrite Hbtn. unfold button_eq.
  rewrite Z.eqb_refl. rewrite Hout. reflexivity.
Qed.

Lemma text_mode_not_i3bar (self : Py3status) :
  input_format self = "text" -> String.eqb (input_format self) "i3bar" = false.
Proof. intros H. rewrite H. reflexivity. Qed.

Lemma lookup_color_colored (line1 line2 : string) (rest : list string)
    (text : pyval) (base : gmap string pyval) :
  base !! "color" = None ->
  (<["full_text" := text]> (Spec.colored (line1 :: line2 :: rest) base)) !! "color"
  = if Re.search_color line2 then Some (VStr line2) else None.
Proof.
  intros Hbase. rewrite lookup_insert_ne by discriminate. simpl.
  destruct (Re.search_color line2); [apply lookup_insert_eq | exact Hbase].
Qed.

Lemma lookup_cached_until_colored (output_lines : list string) (text stamp : pyval) :
  (<["full_text" := text]>
     (Spec.colored output_lines (<["cached_until" := stamp]> ∅))) !! "cached_until"
  = Some stamp.
Proof.
  rewrite lookup_insert_ne by discriminate.
  assert (Hbase : (<["cached_until" := stamp]> (∅ : gmap string pyval)) !! "cached_until"
                  = Some stamp) by apply lookup_insert_eq.
  destruct output_lines as [|line1 [|line2 rest]]; simpl; try exact Hbase.
  destruct (Re.search_color line2); [| exact Hbase].
  rewrite lookup_insert_ne by discriminate. exact Hbase.
Qed.

(** C1: in text mode, when the raw output has at least two lines, the
    cycle produces an item without raising; its [color] is line 2 itself
    when line 2 matches the pattern [^#[0-9a-fA-F]{6}$], that is when it
    is a colour code, and the item has no [color] otherwise. *)
Theorem color_from_second_line (self : Py3status) (raw line1 line2 : string)
    (rest : list string) :
  input_format self = "text" ->
  command_output py3 (script_path self) (localize self) = inl raw ->
  Str.splitlines raw = line1 :: line2 :: rest ->
  exists item : gmap string pyval,
    external_script py3 json_loads self = (Return (VDict item), set_output raw self, [])
    /\ Re.search_color line2 = Spec.is_color_code line2
    /\ (Re.search_color line2 = true -> item !! "color" = Some (VStr line2))
    /\ (Re.search_color line2 = false -> item !! "color" = None).
Proof.
  intros Hmode Hcmd Hlines.
  eexists. split.
  { apply external_script_text; [apply text_mode_not_i3bar, Hmode | exact Hcmd]. }
  rewrite Hlines. split.
  - apply search_color_exact.
    pose proof (splitlines_no_linebreak raw) as Hall. rewrite Hlines in Hall.
    inversion Hall as [|? ? _ Htail]. inversion Htail as [|? ? Hline2 _]. exact Hline2.
  - split; intros Hmatch; rewrite lookup_color_colored, Hmatch;
      try reflexivity; rewrite lookup_insert_ne by discriminate; apply lookup_empty.
Qed.

(** C2: when the command fails with a [CommandError], the captured
    standard output, or the captured standard error when there is no
    standard output, is passed to [py3.error], and the cycle ends there
    without a display item, whatever raw output an earlier cycle stored. *)
Theorem command_failure_reported (self : Py3status) (e : CommandError) :
  command_output py3 (script_path self) (localize self) = inr e ->
  external_script py3 json_loads self
  = (Raise (ModuleErrorException (Spec.diagnostic e)), self, [py3_error (Spec.diagnostic e)])
  /\ (forall item : pyval, fst (fst (external_script py3 json_loads self)) <> Return item)
  /\ (forall out : string,
        ce_output e = Some out -> out <> EmptyString -> Spec.diagnostic e = Some out)
  /\ (ce_output e = None -> Spec.diagnostic e = ce_error e).
Proof.
  intros Hcmd. pose proof (external_script_failure self e Hcmd) as Hrun.
  split; [exact Hrun |]. split; [| split].
  - intros item. rewrite Hrun. discriminate.
  - intros out Hout Hne. unfold Spec.diagnostic. rewrite Hout.
    destruct out; [contradiction | reflexivity].
  - intros Hout. unfold Spec.diagnostic. rewrite Hout. reflexivity.
Qed.


(** C7: a cycle whose command fails leaves the instance, and so the
    stored raw output, as it was; a click on the notification button
    after it still notifies with the output stored before. *)
Theorem failed_cycle_keeps_output (self : Py3status) (e : CommandError) :
  command_output py3 (script_path self) (localize self) = inr e ->
  snd (fst (external_script py3 json_loads self)) = self
  /\ output (snd (fst (external_script py3 json_loads self))) = output self
  /\ (forall (ev : event) (raw : string),
        output self = Some raw ->
        button_show_notification self = Some (button ev) ->
        on_click ev (snd (fst (external_script py3 json_loads self)))
        = (Return tt, self, [py3_notify_user raw; py3_prevent_refresh])).
Proof.
  intros Hcmd. rewrite (external_script_failure self e Hcmd). simpl.
  split; [reflexivity |]. split; [reflexivity |].
  intros ev raw Hout Hbtn. apply on_click_configured; assumption.
Qed.

(** C8: with numeric conversion enabled the nested [try] blocks are the
    normalizer: the integer parse, else the float parse, else the text
    unchanged, and never an exception; the normalizer is given line 1
    after it was trimmed when strip-output is enabled. ["42"] gives the
    integer 42, ["3.14"] the float 3.14 and ["abc"] stays a string. *)
Theorem normalizer_after_strip (self : Py3status) (line : string) (rest : list string) :
  convert_numbers self = true ->
  (forall text : string, convert text self = (Return (Spec.normalize text), self, []))
  /\ primary (line :: rest) self
     = (Return (Spec.normalize (Spec.primary_text (strip_output self) line)), self, [])
  /\ convert "42" self = (Return (VInt 42), self, [])
  /\ convert "3.14" self = (Return (VFloat (FFin (314 # 100))), self, [])
  /\ convert "abc" self = (Return (VStr "abc"), self, []).
Proof.
  intros Hconv. split; [intros text; apply convert_normalize |].
  split.
  - rewrite primary_value_ok. unfold Spec.primary_value. rewrite Hconv. reflexivity.
  - repeat split; rewrite convert_normalize; reflexivity.
Qed.

(** C10: when the failed command carries an empty standard output and a
    standard error, the text reported is the standard error. *)
Theorem empty_stdout_reports_stderr (self : Py3status) (stderr_text : string) :
  command_output py3 (script_path self) (localize self)
  = inr {| ce_output := Some EmptyString; ce_error := Some stderr_text |} ->
  external_script py3 json_loads self
  = (Raise (ModuleErrorException (Some stderr_text)), self, [py3_error (Some stderr_text)]).
Proof. intros Hcmd. rewrite (external_script_failure self _ Hcmd). reflexivity. Qed.

End Properties.

(** ** The methods on concrete cycles *)

Example scenario_two_lines :
  external_script (host (inl two_lines) 0) Json.loads text_instance
  = (Return (VDict (<["full_text" := VStr "12"]>
                      (<["color" := VStr "#FF0000"]>
                         (<["cached_until" := VFloat (FFin (15 # 1))]> ∅)))),
     set_output two_lines text_instance, []).
Proof. vm_compute. reflexivity. Qed.

Example scenario_permission_denied :
  external_script (host (inr denied) 0) Json.loads text_instance
  = (Raise (ModuleErrorException (Some "permission denied")), text_instance,
     [py3_error (Some "permission denied")]).
Proof. reflexivity. Qed.

Example scenario_no_lines :
  primary (Str.splitlines "") text_instance = (Return (VStr ""), text_instance, []).
Proof. reflexivity. Qed.

(** Trimming comes first: the separator 0x1f is removed by [strip] and
    would make both parses fail. *)
Example strip_before_convert :
  primary ["42" +:+ String (ascii_of_N 31) ""] (configured "text" None true None)
  = (Return (VInt 42), configured "text" None true None, [])
  /\ convert ("42" +:+ String (ascii_of_N 31) "") text_instance
     = (Return (VStr ("42" +:+ String (ascii_of_N 31) "")), text_instance, []).
Proof. split; reflexivity. Qed.

Example post_config_hook_rejects :
  fst (fst (post_config_hook (configured "json" None false None)))
  = Raise (ConfigException STRING_ERROR_INPUT_FORMAT)
  /\ fst (fst (post_config_hook text_instance)) = Return tt.
Proof. split; reflexivity. Qed.

(** C4: a click on the configured notification button, while no raw output
    has been stored because the only cycle so far failed, raises
    [AttributeError] on [self.output] before any call is made. *)
Theorem click_before_first_output_raises :
  snd (fst (external_script (host (inr denied) 0) Json.loads (clickable None))) = clickable None
  /\ on_click {| button := 1 |}
       (snd (fst (external_script (host (inr denied) 0) Json.loads (clickable None))))
     = (Raise (AttributeError "output"), clickable None, []).
Proof. split; reflexivity. Qed.

(** C5, the claim as stated fails: with strip-output disabled the padded
    text [" 42 "] does become the integer 42. *)
Lemma padded_number_is_converted :
  strip_output text_instance = false
  /\ convert_numbers text_instance = true
  /\ primary [" 42 "] text_instance = (Return (VInt 42), text_instance, [])
  /\ VInt 42 <> VStr " 42 ".
Proof. repeat split; try reflexivity. discriminate. Qed.


(** ** The theorems at concrete inputs *)

Lemma color_from_second_line_witness :
  input_format text_instance = "text"
  /\ Str.splitlines two_lines = ["12"; "#FF0000"]
  /\ exists item : gmap string pyval,
      external_script (host (inl two_lines) 0) Json.loads text_instance
      = (Return (VDict item), set_output two_lines text_instance, [])
      /\ Re.search_color "#FF0000" = Spec.is_color_code "#FF0000"
      /\ (Re.search_color "#FF0000" = true -> item !! "color" = Some (VStr "#FF0000"))
      /\ (Re.search_color "#FF0000" = false -> item !! "color" = None).
Proof.
  split; [reflexivity |]. split; [reflexivity |].
  apply (color_from_second_line (host (inl two_lines) 0) Json.loads text_instance
           two_lines "12" "#FF0000" []); reflexivity.
Defined.

Lemma command_failure_reported_witness :
  command_output (host (inr denied) 0) (script_path text_instance) (localize text_instance)
  = inr denied
  /\ external_script (host (inr denied) 0) Json.loads text_instance
     = (Raise (ModuleErrorException (Spec.diagnostic denied)), text_instance,
        [py3_error (Spec.diagnostic denied)])
  /\ Spec.diagnostic denied = Some "permission denied".
Proof.
  split; [reflexivity |].
  split; [| reflexivity].
  apply (command_failure_reported (host (inr denied) 0) Json.loads text_instance denied).
  reflexivity.
Defined.


Lemma failed_cycle_keeps_output_witness :
  command_output (host (inr denied) 0) (script_path (clickable (Some "old")))
    (localize (clickable (Some "old"))) = inr denied
  /\ output (snd (fst (external_script (host (inr denied) 0) Json.loads (clickable (Some "old")))))
     = Some "old"
  /\ on_click {| button := 1 |}
       (snd (fst (external_script (host (inr denied) 0) Json.loads (clickable (Some "old")))))
     = (Return tt, clickable (Some "old"), [py3_notify_user "old"; py3_prevent_refresh]).
Proof.
  split; [reflexivity |].
  destruct (failed_cycle_keeps_output (host (inr denied) 0) Json.loads
              (clickable (Some "old")) denied eq_refl) as (_ & Hout & Hclick).
  split; [exact Hout |].
  apply Hclick; reflexivity.
Defined.

Lemma normalizer_after_strip_witness :
  convert_numbers (configured "text" None true None) = true
  /\ primary ["  3.14 "] (configured "text" None true None)
     = (Return (Spec.normalize (Spec.primary_text true "  3.14 ")),
        configured "text" None true None, [])
  /\ Spec.normalize (Spec.primary_text true "  3.14 ") = VFloat (FFin (314 # 100)).
Proof.
  split; [reflexivity |]. split; [| reflexivity].
  apply (normalizer_after_strip (configured "text" None true None) "  3.14 " []).
  reflexivity.
Defined.

Lemma empty_stdout_reports_stderr_witness :
  command_output
    (host (inr {| ce_output := Some EmptyString; ce_error := Some "permission denied" |}) 0)
    (script_path text_instance) (localize text_instance)
  = inr {| ce_output := Some EmptyString; ce_error := Some "permission denied" |}
  /\ external_script
       (host (inr {| ce_output := Some EmptyString; ce_error := Some "permission denied" |}) 0)
       Json.loads text_instance
     = (Raise (ModuleErrorException (Some "permission denied")), text_instance,
        [py3_error (Some "permission denied")]).
Proof.
  split; [reflexivity |].
  apply (empty_stdout_reports_stderr
           (host (inr {| ce_output := Some EmptyString; ce_error := Some "permission denied" |}) 0)
           Json.loads text_instance "permission denied").
  reflexivity.
Defined.

(** ** More facts about the string builtins *)

Section MoreStringFacts.

Lemma append_nil_r (s : string) : s +:+ EmptyString = s.
Proof.
  induction s as [|c s IH]; [reflexivity |].
  change (String c s +:+ EmptyString) with (String c (s +:+ EmptyString)).
  rewrite IH. reflexivity.
Qed.

Lemma append_snoc (cur : string) (c : ascii) (s : string) :
  Str.snoc cur c +:+ s = cur +:+ String c s.
Proof.
  unfold Str.snoc. induction cur as [|c' cur IH]; [reflexivity |].
  change ((String c' cur +:+ String c EmptyString) +:+ s)
    with (String c' ((cur +:+ String c EmptyString) +:+ s)).
  change (String c' cur +:+ String c s) with (String c' (cur +:+ String c s)).
  rewrite IH. reflexivity.
Qed.

Lemma snoc_not_empty (cur : string) (c : ascii) : Str.is_empty (Str.snoc cur c) = false.
Proof. destruct cur; reflexivity. Qed.

Lemma is_lf_not_cr (c : ascii) : Char.is_cr c = true -> Char.is_lf c = false.
Proof.
  unfold Char.is_cr, Char.is_lf. intros H. apply N.eqb_eq in H. rewrite H. reflexivity.
Qed.

(** Only the empty text has no line. *)
Lemma splitlines_from_nil (s cur : string) :
  Str.splitlines_from cur s = [] -> cur = EmptyString /\ s = EmptyString.
Proof.
  revert cur. induction s as [|c s IH]; intros cur H; simpl in H.
  - destruct cur; [split; reflexivity | discriminate].
  - destruct (Char.is_linebreak c); [discriminate |].
    apply IH in H. destruct H as [H _]. destruct cur; discriminate.
Qed.

(** A line without a boundary, then a newline: the line is closed and
    reading goes on with the rest. *)
Lemma splitlines_from_line (line rest : string) :
  Str.no_linebreak line = true ->
  forall cur : string,
    Str.splitlines_from cur (line +:+ String Char.lf rest)
    = (cur +:+ line) :: Str.splitlines_from EmptyString rest.
Proof.
  unfold Str.no_linebreak.
  induction line as [|c line IH]; intros Hline cur.
  - change (EmptyString +:+ String Char.lf rest) with (String Char.lf rest).
    rewrite append_nil_r. simpl.
    change (Char.is_linebreak Char.lf) with true.
    change (Char.is_cr Char.lf) with false. simpl.
    destruct rest; reflexivity.
  - simpl in Hline. apply andb_true_iff in Hline. destruct Hline as [Hc Hline].
    apply negb_true_iff in Hc. simpl. rewrite Hc.
    rewrite (IH Hline), append_snoc. reflexivity.
Qed.

Lemma ends_with_linebreak_tail (c c' : ascii) (s : string) :
  Text.ends_with_linebreak (String c (String c' s)) = Text.ends_with_linebreak (String c' s).
Proof. reflexivity. Qed.

Lemma splitlines_from_keep (c : ascii) (s cur : string) :
  Char.is_linebreak c = false ->
  Str.splitlines_from cur (String c s) = Str.splitlines_from (Str.snoc cur c) s.
Proof. intros Hc. simpl. rewrite Hc. reflexivity. Qed.

Lemma splitlines_from_break_last (c : ascii) (cur : string) :
  Char.is_linebreak c = true ->
  Str.splitlines_from cur (String c EmptyString) = [cur].
Proof. intros Hc. simpl. rewrite Hc. reflexivity. Qed.

Lemma splitlines_from_break_crlf (c c' : ascii) (s cur : string) :
  Char.is_linebreak c = true ->
  Char.is_cr c && Char.is_lf c' = true ->
  Str.splitlines_from cur (String c (String c' s)) = cur :: Str.splitlines_from EmptyString s.
Proof. intros Hc Hcrlf. simpl. rewrite Hc, Hcrlf. reflexivity. Qed.

Lemma splitlines_from_break_other (c c' : ascii) (s cur : string) :
  Char.is_linebreak c = true ->
  Char.is_cr c && Char.is_lf c' = false ->
  Str.splitlines_from cur (String c (String c' s))
  = cur :: Str.splitlines_from EmptyString (String c' s).
Proof. intros Hc Hcrlf. simpl. rewrite Hc, Hcrlf. reflexivity. Qed.

Lemma lf_is_linebreak : Char.is_linebreak Char.lf = true.
Proof. reflexivity. Qed.

(** A newline after a text that does not end in a boundary closes its last
    line and adds none. *)
Lemma splitlines_from_final_newline (n : nat) :
  forall (s cur : string),
    (String.length s <= n)%nat ->
    (s = EmptyString -> Str.is_empty cur = false) ->
    Text.ends_with_linebreak s = false ->
    Str.splitlines_from cur (s +:+ String Char.lf EmptyString) = Str.splitlines_from cur s.
Proof.
  assert (Hbase : forall cur : string,
             Str.is_empty cur = false ->
             Str.splitlines_from cur (EmptyString +:+ String Char.lf EmptyString)
             = Str.splitlines_from cur EmptyString).
  { intros cur Hcur.
    change (EmptyString +:+ String Char.lf EmptyString) with (String Char.lf EmptyString).
    rewrite (splitlines_from_break_last _ _ lf_is_linebreak). simpl. rewrite Hcur. reflexivity. }
  induction n as [|n IH]; intros s cur Hlen Hcur Hends.
  - destruct s as [|c s']; [| simpl in Hlen; lia]. apply Hbase, Hcur, eq_refl.
  - destruct s as [|c s']; [apply Hbase, Hcur, eq_refl |].
    simpl in Hlen.
    change (String c s' +:+ String Char.lf EmptyString)
      with (String c (s' +:+ String Char.lf EmptyString)).
    destruct (Char.is_linebreak c) eqn:Hc.
    + destruct s' as [|c' t]; [simpl in Hends; congruence |].
      rewrite ends_with_linebreak_tail in Hends.
      change (String c' t +:+ String Char.lf EmptyString)
        with (String c' (t +:+ String Char.lf EmptyString)).
      destruct (Char.is_cr c && Char.is_lf c') eqn:Hcrlf.
      * rewrite !(splitlines_from_break_crlf _ _ _ _ Hc Hcrlf). f_equal.
        apply andb_true_iff in Hcrlf. destruct Hcrlf as [_ Hlf].
        apply is_lf_linebreak in Hlf.
        apply IH; [simpl in Hlen; lia | |].
        -- intros ->. simpl in Hends. congruence.
        -- destruct t as [|c2 t2]; [reflexivity |].
           rewrite ends_with_linebreak_tail in Hends. exact Hends.
      * rewrite !(splitlines_from_break_other _ _ _ _ Hc Hcrlf). f_equal.
        change (String c' (t +:+ String Char.lf EmptyString))
          with (String c' t +:+ String Char.lf EmptyString).
        apply IH; [simpl in Hlen |- *; lia | discriminate | exact Hends].
    + rewrite !(splitlines_from_keep _ _ _ Hc).
      apply IH; [lia | intros _; apply snoc_not_empty |].
      destruct s' as [|c' t]; [reflexivity |].
      rewrite ends_with_linebreak_tail in Hends. exact Hends.
Qed.

Lemma splitlines_final_newline_same (s : string) :
  s <> EmptyString ->
  Text.ends_with_linebreak s = false ->
  Str.splitlines (s +:+ String Char.lf EmptyString) = Str.splitlines s.
Proof.
  intros Hne Hends. apply (splitlines_from_final_newline (String.length s)); auto.
  intros ->. contradiction.
Qed.

Lemma splitlines_unlines_same (lines : list string) :
  Forall (fun line => Str.no_linebreak line = true) lines ->
  Str.splitlines (Text.unlines lines) = lines.
Proof.
  unfold Str.splitlines. induction 1 as [|line rest Hline _ IH]; [reflexivity |].
  cbn [Text.unlines]. rewrite (splitlines_from_line _ _ Hline). rewrite IH. reflexivity.
Qed.

Lemma lstrip_by_first (p : ascii -> bool) (s : string) :
  Text.first_is p (Str.lstrip_by p s) = false.
Proof.
  induction s as [|c s IH]; [reflexivity |]. simpl.
  destruct (p c) eqn:Hc; [exact IH | simpl; exact Hc].
Qed.

Lemma rstrip_by_last (p : ascii -> bool) (s : string) :
  Text.last_is p (Str.rstrip_by p s) = false.
Proof.
  induction s as [|c s IH]; [reflexivity |]. simpl.
  destruct (Str.rstrip_by p s) as [|c' r] eqn:Hr.
  - destruct (p c) eqn:Hc; simpl; [reflexivity | exact Hc].
  - rewrite andb_false_r. exact IH.
Qed.

Lemma rstrip_by_first (p : ascii -> bool) (s : string) :
  Text.first_is p s = false -> Text.first_is p (Str.rstrip_by p s) = false.
Proof.
  destruct s as [|c s]; [reflexivity |]. simpl. intros Hc. rewrite Hc. simpl. exact Hc.
Qed.

Lemma lstrip_by_fixed (p : ascii -> bool) (s : string) :
  Text.first_is p s = false -> Str.lstrip_by p s = s.
Proof. destruct s as [|c s]; [reflexivity |]. simpl. intros Hc. rewrite Hc. reflexivity. Qed.

Lemma rstrip_by_cons (p : ascii -> bool) (c : ascii) (s : string) :
  Str.rstrip_by p (String c s)
  = if p c && Str.is_empty (Str.rstrip_by p s) then EmptyString
    else String c (Str.rstrip_by p s).
Proof. reflexivity. Qed.

Lemma rstrip_by_fixed (p : ascii -> bool) (s : string) :
  Text.last_is p s = false -> Str.rstrip_by p s = s.
Proof.
  induction s as [|c s IH]; [reflexivity |]. intros Hlast.
  destruct s as [|c' s'].
  - simpl in *. rewrite Hlast. reflexivity.
  - change (Text.last_is p (String c (String c' s'))) with (Text.last_is p (String c' s')) in Hlast.
    rewrite rstrip_by_cons, (IH Hlast). simpl. rewrite andb_false_r. reflexivity.
Qed.

Lemma lstrip_by_split (p : ascii -> bool) (s : string) :
  exists pre : string, s = pre +:+ Str.lstrip_by p s /\ Str.all p pre = true.
Proof.
  induction s as [|c s (pre & Hs & Hpre)]; [exists EmptyString; split; reflexivity |].
  simpl. destruct (p c) eqn:Hc.
  - exists (String c pre). split.
    + change (String c pre +:+ Str.lstrip_by p s) with (String c (pre +:+ Str.lstrip_by p s)).
      rewrite <- Hs. reflexivity.
    + simpl. rewrite Hc. exact Hpre.
  - exists EmptyString. split; reflexivity.
Qed.

Lemma rstrip_by_split (p : ascii -> bool) (s : string) :
  exists post : string, s = Str.rstrip_by p s +:+ post /\ Str.all p post = true.
Proof.
  induction s as [|c s (post & Hs & Hpost)]; [exists EmptyString; split; reflexivity |].
  simpl. destruct (Str.rstrip_by p s) as [|c' r] eqn:Hr.
  - destruct (p c) eqn:Hc; simpl.
    + exists (String c s). split; [reflexivity |]. simpl. rewrite Hc.
      rewrite Hs. exact Hpost.
    + exists post. rewrite Hs at 1. split; [reflexivity | exact Hpost].
  - rewrite andb_false_r. exists post. rewrite Hs at 1. split; [reflexivity | exact Hpost].
Qed.

(** What [strip_by] keeps: the text between a run of [p] at each end, and
    that text neither starts nor ends with [p]. *)
Lemma strip_by_split (p : ascii -> bool) (s : string) :
  exists pre post : string,
    s = pre +:+ Str.strip_by p s +:+ post
    /\ Str.all p pre = true /\ Str.all p post = true
    /\ Text.first_is p (Str.strip_by p s) = false
    /\ Text.last_is p (Str.strip_by p s) = false.
Proof.
  unfold Str.strip_by.
  destruct (lstrip_by_split p s) as (pre & Hs & Hpre).
  destruct (rstrip_by_split p (Str.lstrip_by p s)) as (post & Hl & Hpost).
  exists pre, post. split; [| split; [exact Hpre | split; [exact Hpost | split]]].
  - rewrite <- Hl. exact Hs.
  - apply rstrip_by_first, lstrip_by_first.
  - apply rstrip_by_last.
Qed.

Lemma strip_by_fixed (p : ascii -> bool) (s : string) :
  Text.first_is p s = false -> Text.last_is p s = false -> Str.strip_by p s = s.
Proof.
  intros Hfirst Hlast. unfold Str.strip_by.
  rewrite (lstrip_by_fixed _ _ Hfirst). apply rstrip_by_fixed, Hlast.
Qed.

End MoreStringFacts.

(** ** Further properties of the methods *)

Section MoreProperties.

Variable py3 : Py3.
Variable json_loads : string -> option pyval.

Lemma truthy_some (path : string) : path <> EmptyString -> truthy (Some path) = true.
Proof. destruct path; [contradiction | reflexivity]. Qed.

Lemma external_script_text_item (self : Py3status) (raw : string) :
  String.eqb (input_format self) "i3bar" = false ->
  command_output py3 (script_path self) (localize self) = inl raw ->
  external_script py3 json_loads self
  = (Return (VDict (text_item py3 self raw)), set_output raw self, []).
Proof. apply external_script_text. Qed.

(** The three ways a cycle can go. *)
Lemma external_script_cases (self : Py3status) :
  (exists e : CommandError,
      command_output py3 (script_path self) (localize self) = inr e
      /\ external_script py3 json_loads self
         = (Raise (ModuleErrorException (Spec.diagnostic e)), self,
            [py3_error (Spec.diagnostic e)]))
  \/ (exists raw : string,
        command_output py3 (script_path self) (localize self) = inl raw
        /\ input_format self = "i3bar"
        /\ external_script py3 json_loads self
           = (match json_loads raw with
              | Some item => Return item
              | None => Raise JSONDecodeError
              end, set_output raw self, []))
  \/ (exists raw : string,
        command_output py3 (script_path self) (localize self) = inl raw
        /\ input_format self <> "i3bar"
        /\ external_script py3 json_loads self
           = (Return (VDict (text_item py3 self raw)), set_output raw self, [])).
Proof.
  destruct (command_output py3 (script_path self) (localize self)) as [raw | e] eqn:Hcmd.
  - destruct (String.eqb_spec (input_format self) "i3bar") as [Hmode | Hmode].
    + right. left. exists raw. split; [reflexivity |]. split; [exact Hmode |].
      apply external_script_i3bar; assumption.
    + right. right. exists raw. split; [reflexivity |]. split; [exact Hmode |].
      apply external_script_text_item; [| exact Hcmd].
      apply String.eqb_neq, Hmode.
  - left. exists e. split; [reflexivity |]. apply external_script_failure, Hcmd.
Qed.

Lemma lookup_colored (output_lines : list string) (base : gmap string pyval)
    (k : string) (v : pyval) :
  Spec.colored output_lines base !! k = Some v ->
  (k = "color"
   /\ exists (line1 line2 : string) (rest : list string),
       output_lines = line1 :: line2 :: rest
       /\ Re.search_color line2 = true /\ v = VStr line2)
  \/ base !! k = Some v.
Proof.
  destruct output_lines as [|line1 [|line2 rest]]; simpl; auto.
  destruct (Re.search_color line2) eqn:Hmatch; auto.
  intros H. apply lookup_insert_Some in H. destruct H as [[<- <-] | [_ H]]; [| auto].
  left. split; [reflexivity |]. exists line1, line2, rest. auto.
Qed.

(** X1: [post_config_hook] rejects a missing or empty [script_path] first,
    then an [input_format] other than ['text'] and ['i3bar']; any other
    configuration is accepted. It leaves the instance as it is. *)
Theorem post_config_hook_checks (self : Py3status) :
  ((script_path self = None \/ script_path self = Some EmptyString) ->
   post_config_hook self = (Raise (ConfigException STRING_ERROR_MISSING_PATH), self, []))
  /\ (forall path : string,
        script_path self = Some path -> path <> EmptyString ->
        input_format self <> "text" -> input_format self <> "i3bar" ->
        post_config_hook self = (Raise (ConfigException STRING_ERROR_INPUT_FORMAT), self, []))
  /\ (forall path : string,
        script_path self = Some path -> path <> EmptyString ->
        input_format self = "text" \/ input_format self = "i3bar" ->
        post_config_hook self = (Return tt, self, [])).
Proof.
  unfold post_config_hook, attr, raise, mbind, M_bind, mret, M_ret. simpl.
  split; [| split].
  - intros [Hpath | Hpath]; rewrite Hpath; reflexivity.
  - intros path Hpath Hne Htext Hi3bar. rewrite Hpath, (truthy_some _ Hne). simpl.
    apply String.eqb_neq in Htext, Hi3bar. rewrite Htext, Hi3bar. reflexivity.
  - intros path Hpath Hne Hmode. rewrite Hpath, (truthy_some _ Hne). simpl.
    destruct Hmode as [Hmode | Hmode]; rewrite Hmode; reflexivity.
Qed.

(** X3: a cycle never calls [notify_user] nor [prevent_refresh], and it
    calls [py3.error] at most once, only as its last act in a cycle that
    raises the module error with the text reported. *)
Theorem external_script_calls (self : Py3status) (result : outcome pyval)
    (after : Py3status) (calls : list call) :
  external_script py3 json_loads self = (result, after, calls) ->
  (forall msg : string, ~ In (py3_notify_user msg) calls)
  /\ ~ In py3_prevent_refresh calls
  /\ (forall msg : option string,
        In (py3_error msg) calls ->
        calls = [py3_error msg] /\ result = Raise (ModuleErrorException msg)).
Proof.
  intros Hrun.
  assert (Hcalls : calls = []
                   \/ exists msg : option string,
                       calls = [py3_error msg] /\ result = Raise (ModuleErrorException msg)).
  { destruct (external_script_cases self)
      as [(ce & Hcmd & H) | [(raw & Hcmd & Hmode & H) | (raw & Hcmd & Hmode & H)]];
      rewrite H in Hrun; inversion Hrun; subst; auto.
    right. exists (Spec.diagnostic ce). auto. }
  destruct Hcalls as [-> | (msg & -> & ->)].
  - repeat split; intros; try (intros []); contradiction.
  - split; [| split].
    + intros m [H | []]. discriminate.
    + intros [H | []]. discriminate.
    + intros m [H | []]. inversion H; subst. split; reflexivity.
Qed.

(** X4: a text-mode item always has [full_text], a string, and
    [cached_until], and no key besides these two and [color]. *)
Theorem text_item_keys (self : Py3status) (raw : string) :
  input_format self = "text" ->
  command_output py3 (script_path self) (localize self) = inl raw ->
  exists item : gmap string pyval,
    external_script py3 json_loads self = (Return (VDict item), set_output raw self, [])
    /\ (exists text : string, item !! "full_text" = Some (VStr text))
    /\ (exists stamp : pyval, item !! "cached_until" = Some stamp)
    /\ (forall (k : string) (v : pyval),
          item !! k = Some v -> k = "full_text" \/ k = "cached_until" \/ k = "color").
Proof.
  intros Hmode Hcmd. exists (text_item py3 self raw). split.
  { apply external_script_text_item; [apply text_mode_not_i3bar, Hmode | exact Hcmd]. }
  unfold text_item. split; [| split].
  - eexists. apply lookup_insert_eq.
  - eexists. apply lookup_cached_until_colored.
  - intros k v H. apply lookup_insert_Some in H. destruct H as [[<- _] | [_ H]]; [auto |].
    apply lookup_colored in H. destruct H as [[-> _] | H]; [auto |].
    apply lookup_insert_Some in H. destruct H as [[<- _] | [_ H]]; [auto |].
    rewrite lookup_empty in H. discriminate.
Qed.

(** X5: a text-mode item has a [color] exactly when the output has a
    second line that is a colour code, and the colour is that line: one
    line alone never colours the item, whatever it holds. *)
Theorem text_item_color_iff (self : Py3status) (raw : string) :
  input_format self = "text" ->
  command_output py3 (script_path self) (localize self) = inl raw ->
  exists item : gmap string pyval,
    external_script py3 json_loads self = (Return (VDict item), set_output raw self, [])
    /\ (forall v : pyval,
          item !! "color" = Some v
          <-> exists (line1 line2 : string) (rest : list string),
                Str.splitlines raw = line1 :: line2 :: rest
                /\ Spec.is_color_code line2 = true /\ v = VStr line2).
Proof.
  intros Hmode Hcmd. exists (text_item py3 self raw). split.
  { apply external_script_text_item; [apply text_mode_not_i3bar, Hmode | exact Hcmd]. }
  assert (Hexact : forall (line1 line2 : string) (rest : list string),
             Str.splitlines raw = line1 :: line2 :: rest ->
             Re.search_color line2 = Spec.is_color_code line2).
  { intros line1 line2 rest Hlines. apply search_color_exact.
    pose proof (splitlines_no_linebreak raw) as Hall. rewrite Hlines in Hall.
    inversion Hall as [|? ? _ Htail]. inversion Htail as [|? ? Hline2 _]. exact Hline2. }
  intros v. unfold text_item. rewrite lookup_insert_ne by discriminate. split.
  - intros H. apply lookup_colored in H.
    destruct H as [[_ (line1 & line2 & rest & Hlines & Hmatch & ->)] | H].
    + exists line1, line2, rest. rewrite <- (Hexact _ _ _ Hlines). auto.
    + rewrite lookup_insert_ne in H by discriminate. rewrite lookup_empty in H. discriminate.
  - intros (line1 & line2 & rest & Hlines & Hcode & ->).
    rewrite Hlines. simpl. rewrite (Hexact _ _ _ Hlines), Hcode. apply lookup_insert_eq.
Qed.

(** X6: only the empty output has no line; its item is formatted from the
    empty string and zero lines, and has no colour. *)
Theorem empty_output_item (self : Py3status) (raw : string) :
  input_format self = "text" ->
  command_output py3 (script_path self) (localize self) = inl raw ->
  (Str.splitlines raw = [] <-> raw = EmptyString)
  /\ (raw = EmptyString ->
      external_script py3 json_loads self
      = (Return
           (VDict
              (<["full_text" :=
                   VStr (safe_format py3 (format self)
                           (<["lines" := VInt 0]> {["output" := VStr EmptyString]}))]>
                 (<["cached_until" := VFloat (FFin (now py3 + cache_timeout self)%Q)]> ∅))),
         set_output EmptyString self, [])).
Proof.
  intros Hmode Hcmd. split.
  - split; [| intros ->; reflexivity].
    intros H. apply splitlines_from_nil in H. apply H.
  - intros ->.
    rewrite (external_script_text_item self EmptyString);
      [reflexivity | apply text_mode_not_i3bar, Hmode | exact Hcmd].
Qed.

(** X7: in i3bar mode a document that [json.loads] rejects ends the cycle
    with the decode error; [py3.error] is not called, and the rejected
    text is stored, so the next click on the notification button shows it. *)
Theorem i3bar_malformed_document (self : Py3status) (raw : string) (ev : event) :
  input_format self = "i3bar" ->
  command_output py3 (script_path self) (localize self) = inl raw ->
  json_loads raw = None ->
  button_show_notification self = Some (button ev) ->
  external_script py3 json_loads self = (Raise JSONDecodeError, set_output raw self, [])
  /\ on_click ev (snd (fst (external_script py3 json_loads self)))
     = (Return tt, set_output raw self, [py3_notify_user raw; py3_prevent_refresh]).
Proof.
  intros Hmode Hcmd Hjson Hbtn.
  rewrite (external_script_i3bar py3 json_loads self raw Hmode Hcmd), Hjson.
  split; [reflexivity |]. simpl. apply on_click_configured; [exact Hbtn | reflexivity].
Qed.

(** X8: after a cycle whose command succeeded, in either mode, a click on
    the notification button notifies with exactly the raw output of that
    cycle, whatever was stored before. *)
Theorem click_after_cycle_uses_latest (self : Py3status) (raw : string) (ev : event) :
  command_output py3 (script_path self) (localize self) = inl raw ->
  button_show_notification self = Some (button ev) ->
  on_click ev (snd (fst (external_script py3 json_loads self)))
  = (Return tt, set_output raw self, [py3_notify_user raw; py3_prevent_refresh]).
Proof.
  intros Hcmd Hbtn.
  destruct (external_script_cases self)
    as [(ce & Hcmd' & H) | [(raw' & Hcmd' & Hmode & H) | (raw' & Hcmd' & Hmode & H)]];
    rewrite Hcmd in Hcmd'; inversion Hcmd'; subst; rewrite H; simpl;
    apply on_click_configured; (exact Hbtn || reflexivity).
Qed.

(** X9: what a cycle returns or raises, and the calls it makes, do not
    depend on the raw output stored by earlier cycles. *)
Theorem cycle_ignores_stored_output (self : Py3status) (saved : option string) :
  fst (fst (external_script py3 json_loads (with_output saved self)))
  = fst (fst (external_script py3 json_loads self))
  /\ snd (external_script py3 json_loads (with_output saved self))
     = snd (external_script py3 json_loads self).
Proof.
  destruct (external_script_cases self)
    as [(ce & Hcmd & H) | [(raw & Hcmd & Hmode & H) | (raw & Hcmd & Hmode & H)]];
    rewrite H.
  - rewrite (external_script_failure py3 json_loads (with_output saved self) ce Hcmd).
    split; reflexivity.
  - rewrite (external_script_i3bar py3 json_loads (with_output saved self) raw Hmode Hcmd).
    split; reflexivity.
  - rewrite (external_script_text_item (with_output saved self) raw);
      [split; reflexivity | apply String.eqb_neq, Hmode | exact Hcmd].
Qed.

(** X10: a cycle never changes the configuration of the instance; the
    only attribute it may assign is [output]. *)
Theorem cycle_keeps_configuration (self : Py3status) :
  exists saved : option string,
    snd (fst (external_script py3 json_loads self)) = with_output saved self.
Proof.
  destruct (external_script_cases self)
    as [(ce & Hcmd & H) | [(raw & Hcmd & Hmode & H) | (raw & Hcmd & Hmode & H)]];
    rewrite H; simpl.
  - exists (output self). destruct self; reflexivity.
  - exists (Some raw). reflexivity.
  - exists (Some raw). reflexivity.
Qed.

End MoreProperties.

(** ** Facts about the numeric literals *)

Section NumberFacts.

(** Case analysis on the 256 characters. *)
Ltac each_char c :=
  destruct c as [[|] [|] [|] [|] [|] [|] [|] [|]]; vm_compute; try reflexivity; try discriminate.

Lemma digit_not_space (c : ascii) : Text.is_digit c = true -> Char.is_space c = false.
Proof. each_char c. Qed.

Lemma digit_lower_not_i (c : ascii) :
  Text.is_digit c = true -> Ascii.eqb (Char.lower c) "i" = false.
Proof. each_char c. Qed.

Lemma digit_lower_not_n (c : ascii) :
  Text.is_digit c = true -> Ascii.eqb (Char.lower c) "n" = false.
Proof. each_char c. Qed.

Lemma number_space_is_space (c : ascii) :
  Char.is_number_space c = true -> Char.is_space c = true.
Proof. each_char c. Qed.

Lemma all_weaken (p q : ascii -> bool) (s : string) :
  (forall c : ascii, p c = true -> q c = true) -> Str.all p s = true -> Str.all q s = true.
Proof.
  intros Hpq. induction s as [|c s IH]; [reflexivity |]. simpl.
  intros H. apply andb_true_iff in H. destruct H as [Hc Hs].
  rewrite (Hpq c Hc), (IH Hs). reflexivity.
Qed.

Lemma last_is_cons (p : ascii -> bool) (c c' : ascii) (s : string) :
  Text.last_is p (String c (String c' s)) = Text.last_is p (String c' s).
Proof. reflexivity. Qed.

Lemma last_is_digit_not_space (s : string) :
  Text.last_is Text.is_digit s = true -> Text.last_is Char.is_space s = false.
Proof.
  induction s as [|c s IH]; [discriminate |].
  destruct s as [|c' s'].
  - simpl. apply digit_not_space.
  - rewrite !last_is_cons. exact IH.
Qed.

Lemma is_digit_value (c : ascii) (d : N) : Char.digit_value c = Some d -> Text.is_digit c = true.
Proof. unfold Text.is_digit. intros ->. reflexivity. Qed.

(** A digit run counts at least the digits it started with, and when it
    reads to the end of the text, the text ends with a digit. *)
Lemma digit_run_from_facts (n : nat) :
  forall (s : string) (acc : N) (cnt : nat) (v : N) (k : nat) (r : string),
    (String.length s <= n)%nat ->
    Num.digit_run_from acc cnt s = (v, k, r) ->
    (cnt <= k)%nat
    /\ (r = EmptyString -> s = EmptyString \/ Text.last_is Text.is_digit s = true).
Proof.
  induction n as [|n IH]; intros s acc cnt v k r Hlen Hrun.
  - destruct s; [| simpl in Hlen; lia]. simpl in Hrun. inversion Hrun; subst. auto.
  - destruct s as [|c s']; [simpl in Hrun; inversion Hrun; subst; auto |].
    simpl in Hlen. simpl in Hrun.
    destruct (Char.digit_value c) as [d |] eqn:Hd.
    + apply IH in Hrun; [| lia]. destruct Hrun as [Hcnt Hlast].
      split; [lia |]. intros Hr. right.
      destruct (Hlast Hr) as [-> | Hl].
      * simpl. apply (is_digit_value _ _ Hd).
      * destruct s' as [|c' t]; [discriminate |]. rewrite last_is_cons. exact Hl.
    + destruct (Ascii.eqb c "_");
        [| inversion Hrun; subst; split; [lia | discriminate]].
      destruct s' as [|c' t]; [inversion Hrun; subst; split; [lia | discriminate] |].
      destruct (Char.digit_value c') as [d |] eqn:Hd';
        [| inversion Hrun; subst; split; [lia | discriminate]].
      apply IH in Hrun; [| simpl in Hlen; lia]. destruct Hrun as [Hcnt Hlast].
      split; [lia |]. intros Hr. right. rewrite last_is_cons.
      destruct (Hlast Hr) as [-> | Hl].
      * simpl. apply (is_digit_value _ _ Hd').
      * destruct t as [|c2 t2]; [discriminate |]. rewrite last_is_cons. exact Hl.
Qed.

(** A text that is one digit run starts and ends with a digit. *)
Lemma digit_run_whole (s : string) (v : N) (k : nat) :
  Num.digit_run s = Some (v, k, EmptyString) ->
  Text.first_is Text.is_digit s = true
  /\ Text.last_is Text.is_digit s = true
  /\ k <> 0%nat.
Proof.
  unfold Num.digit_run. destruct s as [|c s']; [discriminate |].
  destruct (Char.digit_value c) as [d |] eqn:Hd; [| discriminate].
  intros H. inversion H as [Hrun]. clear H.
  destruct (digit_run_from_facts (String.length s') s' d 1%nat v k EmptyString (le_n _) Hrun)
    as [Hcnt Hlast].
  split; [simpl; apply (is_digit_value _ _ Hd) |]. split; [| lia].
  destruct (Hlast eq_refl) as [-> | Hl].
  - simpl. apply (is_digit_value _ _ Hd).
  - destruct s' as [|c' t]; [discriminate |]. rewrite last_is_cons. exact Hl.
Qed.

Lemma sign_cases (s : string) :
  (exists s1 : string, s = String "-" s1 /\ Num.sign s = (true, s1))
  \/ (exists s1 : string, s = String "+" s1 /\ Num.sign s = (false, s1))
  \/ Num.sign s = (false, s).
Proof.
  destruct s as [|c s1]; [right; right; reflexivity |]. unfold Num.sign.
  destruct (Ascii.eqb_spec c "-") as [-> | _]; [left; eauto |].
  destruct (Ascii.eqb_spec c "+") as [-> | _]; [right; left; eauto |].
  right; right; reflexivity.
Qed.

(** An integer literal has no white space at either end. *)
Lemma int_body_ends (x : string) (n : Z) :
  Num.int_body x = Some n ->
  Text.first_is Char.is_space x = false /\ Text.last_is Char.is_space x = false.
Proof.
  unfold Num.int_body.
  assert (Hdigits : forall (s1 : string) (negative : bool),
             match Num.digit_run s1 with
             | Some (m, _, EmptyString) => Some (Num.signed negative m)
             | _ => None
             end = Some n ->
             Text.first_is Char.is_space s1 = false
             /\ Text.last_is Char.is_space s1 = false /\ s1 <> EmptyString).
  { intros s1 negative H.
    destruct (Num.digit_run s1) as [[[m k] r] |] eqn:Hrun; [| discriminate].
    destruct r; [| discriminate].
    destruct (digit_run_whole _ _ _ Hrun) as (Hfirst & Hlast & _).
    split; [| split].
    - destruct s1; [discriminate |]. simpl in *. apply digit_not_space, Hfirst.
    - apply last_is_digit_not_space, Hlast.
    - intros ->. discriminate. }
  destruct (sign_cases x) as [(s1 & -> & ->) | [(s1 & -> & ->) | ->]]; intros H;
    destruct (Hdigits _ _ H) as (Hfirst & Hlast & Hne).
  - split; [reflexivity |]. destruct s1; [contradiction |]. rewrite last_is_cons. exact Hlast.
  - split; [reflexivity |]. destruct s1; [contradiction |]. rewrite last_is_cons. exact Hlast.
  - split; assumption.
Qed.

(** Trimming does not undo an integer parse. *)
Lemma int_of_str_strip (line : string) (n : Z) :
  Num.int_of_str line = Some n -> Num.int_of_str (Str.strip line) = Some n.
Proof.
  unfold Num.int_of_str, Str.strip. intros Hint.
  destruct (strip_by_split Char.is_number_space line)
    as (pre & post & Hline & Hpre & Hpost & Hfirst & Hlast).
  destruct (int_body_ends _ _ Hint) as [Hfirst' Hlast'].
  rewrite Hline at 1.
  rewrite strip_by_pad by (eapply all_weaken; [apply number_space_is_space | eassumption]).
  rewrite (strip_by_fixed _ _ Hfirst' Hlast').
  rewrite (strip_by_fixed _ _ Hfirst Hlast). exact Hint.
Qed.

Lemma lower_cons (c : ascii) (s : string) :
  Str.lower (String c s) = String (Char.lower c) (Str.lower s).
Proof. reflexivity. Qed.

(** Every integer literal is also a float literal, of the same value. *)
Lemma int_body_float_body (x : string) (n : Z) :
  Num.int_body x = Some n -> Num.float_body x = Some (FFin (n # 1)).
Proof.
  unfold Num.int_body, Num.float_body.
  destruct (Num.sign x) as [negative s1].
  destruct (Num.digit_run s1) as [[[m k] r] |] eqn:Hrun; [| discriminate].
  destruct r; [| discriminate]. intros H. inversion H; subst. clear H.
  destruct (digit_run_whole _ _ _ Hrun) as (Hfirst & _ & Hk).
  destruct s1 as [|c s']; [discriminate |]. simpl in Hfirst.
  rewrite lower_cons. simpl String.eqb.
  rewrite (digit_lower_not_i _ Hfirst), (digit_lower_not_n _ Hfirst). simpl.
  unfold Num.mantissa. rewrite Hrun.
  apply Nat.eqb_neq in Hk. rewrite Hk. reflexivity.
Qed.

Lemma int_of_str_float_of_str (text : string) (n : Z) :
  Num.int_of_str text = Some n -> Num.float_of_str text = Some (FFin (n # 1)).
Proof. apply int_body_float_body. Qed.

Lemma lower_e_not_space (c : ascii) :
  Ascii.eqb (Char.lower c) "e" = true -> Char.is_space c = false.
Proof. each_char c. Qed.

Lemma space_lower (c : ascii) : Char.is_space c = true -> Char.lower c = c.
Proof. each_char c. Qed.

Lemma no_space_cons (c : ascii) (s : string) :
  Char.is_space c = false -> Text.no_space s = true -> Text.no_space (String c s) = true.
Proof. unfold Text.no_space. simpl. intros -> ->. reflexivity. Qed.

Lemma no_space_ends (s : string) :
  Text.no_space s = true ->
  Text.first_is Char.is_space s = false /\ Text.last_is Char.is_space s = false.
Proof.
  induction s as [|c s IH]; [split; reflexivity |]. intros H.
  assert (Hcs : Char.is_space c = false /\ Text.no_space s = true).
  { unfold Text.no_space in *. simpl in H. apply andb_true_iff in H.
    destruct H as [Hc Hs]. apply negb_true_iff in Hc. split; assumption. }
  destruct Hcs as [Hc Hs]. split; [exact Hc |].
  destruct s as [|c' s']; [exact Hc |]. rewrite last_is_cons. apply (IH Hs).
Qed.

Lemma no_space_lower (s : string) :
  Text.no_space (Str.lower s) = true -> Text.no_space s = true.
Proof.
  unfold Text.no_space. induction s as [|c s IH]; [reflexivity |].
  rewrite lower_cons. simpl. intros H. apply andb_true_iff in H. destruct H as [Hc Hs].
  rewrite (IH Hs), andb_true_r.
  destruct (Char.is_space c) eqn:Hsp; [| reflexivity].
  rewrite (space_lower _ Hsp), Hsp in Hc. discriminate.
Qed.

(** What a digit run reads holds no white space. *)
Lemma digit_run_from_no_space (n : nat) :
  forall (s : string) (acc : N) (cnt : nat) (v : N) (k : nat) (r : string),
    (String.length s <= n)%nat ->
    Num.digit_run_from acc cnt s = (v, k, r) ->
    Text.no_space r = true -> Text.no_space s = true.
Proof.
  induction n as [|n IH]; intros s acc cnt v k r Hlen Hrun Hr.
  - destruct s; [reflexivity | simpl in Hlen; lia].
  - destruct s as [|c s']; [reflexivity |].
    simpl in Hlen. simpl in Hrun.
    destruct (Char.digit_value c) as [d |] eqn:Hd.
    + apply no_space_cons; [apply digit_not_space, (is_digit_value _ _ Hd) |].
      eapply IH; [| exact Hrun | exact Hr]. lia.
    + destruct (Ascii.eqb_spec c "_") as [-> | _]; [| inversion Hrun; subst; exact Hr].
      destruct s' as [|c' t]; [inversion Hrun; subst; exact Hr |].
      destruct (Char.digit_value c') as [d |] eqn:Hd'; [| inversion Hrun; subst; exact Hr].
      apply no_space_cons; [reflexivity |].
      apply no_space_cons; [apply digit_not_space, (is_digit_value _ _ Hd') |].
      eapply IH; [| exact Hrun | exact Hr]. simpl in Hlen. lia.
Qed.

Lemma digit_run_no_space (s : string) (v : N) (k : nat) (r : string) :
  Num.digit_run s = Some (v, k, r) ->
  Text.no_space r = true -> Text.no_space s = true /\ s <> EmptyString.
Proof.
  unfold Num.digit_run. destruct s as [|c s']; [discriminate |].
  destruct (Char.digit_value c) as [d |] eqn:Hd; [| discriminate].
  intros H Hr. inversion H as [Hrun]. split; [| discriminate].
  apply no_space_cons; [apply digit_not_space, (is_digit_value _ _ Hd) |].
  apply (digit_run_from_no_space _ _ _ _ _ _ _ (le_n _) Hrun Hr).
Qed.

Lemma sign_no_space (s s1 : string) (negative : bool) :
  Num.sign s = (negative, s1) -> Text.no_space s1 = true -> Text.no_space s = true.
Proof.
  destruct (sign_cases s) as [(t & -> & ->) | [(t & -> & ->) | ->]];
    intros H Hs1; inversion H; subst; try exact Hs1;
    apply no_space_cons; (reflexivity || exact Hs1).
Qed.

Lemma sign_not_empty (s s1 : string) (negative : bool) :
  Num.sign s = (negative, s1) -> s1 <> EmptyString -> s <> EmptyString.
Proof.
  destruct (sign_cases s) as [(t & -> & ->) | [(t & -> & ->) | ->]];
    intros H Hs1; inversion H; subst; (discriminate || exact Hs1).
Qed.

Lemma exponent_no_space (s : string) (e : Z) (r : string) :
  Num.exponent s = Some (e, r) -> Text.no_space r = true -> Text.no_space s = true.
Proof.
  unfold Num.exponent. destruct s as [|c s']; [reflexivity |].
  destruct (Ascii.eqb (Char.lower c) "e") eqn:Hc; [| discriminate].
  destruct (Num.sign s') as [negative s1] eqn:Hsign.
  destruct (Num.digit_run s1) as [[[m k] r'] |] eqn:Hrun; [| discriminate].
  intros H Hr. inversion H; subst.
  apply no_space_cons; [apply lower_e_not_space, Hc |].
  apply (sign_no_space _ _ _ Hsign). apply (digit_run_no_space _ _ _ _ Hrun Hr).
Qed.

Lemma mantissa_no_space (s : string) (m : N) (fcnt : nat) (r : string) :
  Num.mantissa s = Some (m, fcnt, r) ->
  Text.no_space r = true -> Text.no_space s = true /\ s <> EmptyString.
Proof.
  unfold Num.mantissa.
  destruct (Num.digit_run s) as [[[ip icnt] s1] |] eqn:Hint.
  - intros H Hr.
    assert (Hs1 : Text.no_space s1 = true).
    { destruct s1 as [|c s2]; [reflexivity |].
      destruct (Ascii.eqb_spec c ".") as [-> | _].
      - apply no_space_cons; [reflexivity |].
        destruct (Num.digit_run s2) as [[[fp fc] s3] |] eqn:Hfrac.
        + inversion H; subst. apply (digit_run_no_space _ _ _ _ Hfrac Hr).
        + destruct (Nat.eqb icnt 0); inversion H; subst. exact Hr.
      - destruct (Nat.eqb icnt 0); inversion H; subst. exact Hr. }
    apply (digit_run_no_space _ _ _ _ Hint Hs1).
  - destruct s as [|c s2]; [discriminate |].
    destruct (Ascii.eqb_spec c ".") as [-> | _]; [| discriminate].
    destruct (Num.digit_run s2) as [[[fp fc] s3] |] eqn:Hfrac; [| discriminate].
    intros H Hr. inversion H; subst. split; [| discriminate].
    apply no_space_cons; [reflexivity |]. apply (digit_run_no_space _ _ _ _ Hfrac Hr).
Qed.

(** A float literal is not empty and holds no white space. *)
Lemma float_body_no_space (x : string) (f : pyfloat) :
  Num.float_body x = Some f -> Text.no_space x = true /\ x <> EmptyString.
Proof.
  unfold Num.float_body. destruct (Num.sign x) as [negative s1] eqn:Hsign.
  assert (Hword : forall w : string,
             String.eqb (Str.lower s1) w = true -> Text.no_space w = true ->
             w <> EmptyString ->
             Text.no_space x = true /\ x <> EmptyString).
  { intros w Hw Hns Hne. apply String.eqb_eq in Hw. split.
    - apply (sign_no_space _ _ _ Hsign), no_space_lower. rewrite Hw. exact Hns.
    - apply (sign_not_empty _ _ _ Hsign). intros ->. apply Hne. rewrite <- Hw. reflexivity. }
  destruct (String.eqb (Str.lower s1) "inf") eqn:Hinf;
    [intros _; apply (Hword _ Hinf); [reflexivity | discriminate] |].
  destruct (String.eqb (Str.lower s1) "infinity") eqn:Hinfinity;
    [intros _; apply (Hword _ Hinfinity); [reflexivity | discriminate] |].
  destruct (String.eqb (Str.lower s1) "nan") eqn:Hnan;
    [intros _; apply (Hword _ Hnan); [reflexivity | discriminate] |].
  simpl. destruct (Num.mantissa s1) as [[[m fcnt] s2] |] eqn:Hm; [| discriminate].
  destruct (Num.exponent s2) as [[e r] |] eqn:He; [| discriminate].
  destruct r; [| discriminate]. intros _.
  destruct (mantissa_no_space _ _ _ _ Hm (exponent_no_space _ _ _ He eq_refl)) as [Hns Hne].
  split; [apply (sign_no_space _ _ _ Hsign Hns) | apply (sign_not_empty _ _ _ Hsign Hne)].
Qed.

(** Trimming a text whose number literal has no white space at its ends
    leaves the literal. *)
Lemma strip_number_body (line : string) :
  Text.first_is Char.is_space (Str.strip_by Char.is_number_space line) = false ->
  Text.last_is Char.is_space (Str.strip_by Char.is_number_space line) = false ->
  Str.strip_by Char.is_number_space (Str.strip line)
  = Str.strip_by Char.is_number_space line.
Proof.
  intros Hfirst' Hlast'. unfold Str.strip.
  destruct (strip_by_split Char.is_number_space line)
    as (pre & post & Hline & Hpre & Hpost & Hfirst & Hlast).
  rewrite Hline at 1.
  rewrite strip_by_pad by (eapply all_weaken; [apply number_space_is_space | eassumption]).
  rewrite (strip_by_fixed _ _ Hfirst' Hlast').
  apply (strip_by_fixed _ _ Hfirst Hlast).
Qed.

Lemma float_of_str_strip (line : string) (f : pyfloat) :
  Num.float_of_str line = Some f ->
  Num.float_of_str (Str.strip line) = Some f
  /\ Num.int_of_str (Str.strip line) = Num.int_of_str line.
Proof.
  unfold Num.float_of_str, Num.int_of_str. intros Hfloat.
  destruct (float_body_no_space _ _ Hfloat) as [Hns _].
  destruct (no_space_ends _ Hns) as [Hfirst Hlast].
  rewrite (strip_number_body _ Hfirst Hlast). split; [exact Hfloat | reflexivity].
Qed.

End NumberFacts.

(** ** Properties of the text pipeline and of the click handler *)

Section PipelineProperties.

Variables py3 py3' : Py3.
Variable json_loads : string -> option pyval.

(** Two outputs whose lines give the same colour, the same primary value
    and the same count give the same item. *)
Lemma text_item_same (self : Py3status) (raw raw' : string) :
  now py3 = now py3' ->
  safe_format py3 = safe_format py3' ->
  Spec.colored (Str.splitlines raw) = Spec.colored (Str.splitlines raw') ->
  Spec.primary_value self (Str.splitlines raw) = Spec.primary_value self (Str.splitlines raw') ->
  length (Str.splitlines raw) = length (Str.splitlines raw') ->
  text_item py3 self raw = text_item py3' self raw'.
Proof.
  intros Hnow Hformat Hcolor Hprimary Hlen. unfold text_item, time_in.
  rewrite Hnow, Hformat, Hcolor, Hprimary, Hlen. reflexivity.
Qed.

Lemma first_two_lines_same (self : Py3status) (lines lines' : list string) :
  take 2 lines = take 2 lines' ->
  Spec.colored lines = Spec.colored lines'
  /\ Spec.primary_value self lines = Spec.primary_value self lines'.
Proof.
  destruct lines as [|a [|b l]], lines' as [|a' [|b' l']]; simpl;
    intros H; inversion H; subst; split; reflexivity.
Qed.

(** X11: the click handler leaves the instance as it is; it makes either
    no call or the notification followed by the suppression, never one of
    the two alone; and it does not look at [input_format], so a click on
    the notification button notifies in i3bar mode as well. *)
Theorem on_click_effects (self : Py3status) (ev : event) :
  snd (fst (on_click ev self)) = self
  /\ (snd (on_click ev self) = []
      \/ exists raw : string,
          output self = Some raw
          /\ snd (on_click ev self) = [py3_notify_user raw; py3_prevent_refresh])
  /\ (forall mode : string,
        fst (fst (on_click ev (with_input_format mode self))) = fst (fst (on_click ev self))
        /\ snd (on_click ev (with_input_format mode self)) = snd (on_click ev self)).
Proof.
  run_method.
  destruct (button_eq (button ev) (button_show_notification self));
    [| repeat split; auto].
  destruct (output self) as [raw |] eqn:Hout; simpl.
  - split; [reflexivity |]. split; [right; exists raw; auto |].
    intros mode. simpl. rewrite Hout. split; reflexivity.
  - split; [reflexivity |]. split; [left; reflexivity |].
    intros mode. simpl. rewrite Hout. split; reflexivity.
Qed.

(** X12: in text mode the item depends on the output only through its
    first two lines and the number of its lines. *)
Theorem item_uses_first_two_lines (self : Py3status) (raw raw' : string) :
  now py3 = now py3' ->
  safe_format py3 = safe_format py3' ->
  input_format self = "text" ->
  command_output py3 (script_path self) (localize self) = inl raw ->
  command_output py3' (script_path self) (localize self) = inl raw' ->
  take 2 (Str.splitlines raw) = take 2 (Str.splitlines raw') ->
  length (Str.splitlines raw) = length (Str.splitlines raw') ->
  fst (fst (external_script py3 json_loads self))
  = fst (fst (external_script py3' json_loads self)).
Proof.
  intros Hnow Hformat Hmode Hcmd Hcmd' Htake Hlen.
  rewrite (external_script_text_item py3 json_loads self raw (text_mode_not_i3bar _ Hmode) Hcmd).
  rewrite (external_script_text_item py3' json_loads self raw' (text_mode_not_i3bar _ Hmode) Hcmd').
  simpl. destruct (first_two_lines_same self _ _ Htake) as [Hcolor Hprimary].
  rewrite (text_item_same self raw raw' Hnow Hformat Hcolor Hprimary Hlen). reflexivity.
Qed.

(** X13: a newline added at the end of an output that is not empty and
    does not end in a line boundary does not change the item. *)
Theorem final_newline_same_item (self : Py3status) (raw : string) :
  now py3 = now py3' ->
  safe_format py3 = safe_format py3' ->
  input_format self = "text" ->
  command_output py3 (script_path self) (localize self) = inl raw ->
  command_output py3' (script_path self) (localize self)
  = inl (raw +:+ String Char.lf EmptyString) ->
  raw <> EmptyString ->
  Text.ends_with_linebreak raw = false ->
  Str.splitlines (raw +:+ String Char.lf EmptyString) = Str.splitlines raw
  /\ fst (fst (external_script py3' json_loads self))
     = fst (fst (external_script py3 json_loads self)).
Proof.
  intros Hnow Hformat Hmode Hcmd Hcmd' Hne Hends.
  pose proof (splitlines_final_newline_same raw Hne Hends) as Hsame.
  split; [exact Hsame |].
  rewrite (external_script_text_item py3 json_loads self raw (text_mode_not_i3bar _ Hmode) Hcmd).
  rewrite (external_script_text_item py3' json_loads self _ (text_mode_not_i3bar _ Hmode) Hcmd').
  simpl. unfold text_item, time_in. rewrite Hsame, Hnow, Hformat. reflexivity.
Qed.

(** X14: when the script prints lines, each followed by a newline and
    none holding a line boundary, the cycle splits the output back into
    exactly these lines: the template gets their number, line 1 gives the
    primary value and line 2 decides the colour. *)
Theorem printed_lines_recovered (self : Py3status) (lines : list string) :
  Forall (fun line => Str.no_linebreak line = true) lines ->
  input_format self = "text" ->
  command_output py3 (script_path self) (localize self) = inl (Text.unlines lines) ->
  Str.splitlines (Text.unlines lines) = lines
  /\ external_script py3 json_loads self
     = (Return
          (VDict
             (<["full_text" :=
                  VStr (safe_format py3 (format self)
                          (<["lines" := VInt (Z.of_nat (length lines))]>
                             {["output" := Spec.primary_value self lines]}))]>
                (Spec.colored lines
                   (<["cached_until" := VFloat (FFin (now py3 + cache_timeout self)%Q)]> ∅)))),
        set_output (Text.unlines lines) self, []).
Proof.
  intros Hlines Hmode Hcmd.
  pose proof (splitlines_unlines_same lines Hlines) as Hsplit.
  split; [exact Hsplit |].
  rewrite (external_script_text_item py3 json_loads self _ (text_mode_not_i3bar _ Hmode) Hcmd).
  unfold text_item, time_in. rewrite Hsplit. reflexivity.
Qed.

(** X15: with strip-output enabled and numeric conversion disabled, the
    value of [output] is line 1 without the white space at its two ends:
    only white space is removed, the text kept neither starts nor ends
    with white space, and trimming it again changes nothing. *)
Theorem stripped_primary_text (self : Py3status) (line : string) (rest : list string) :
  strip_output self = true ->
  convert_numbers self = false ->
  exists pre text post : string,
    primary (line :: rest) self = (Return (VStr text), self, [])
    /\ line = pre +:+ text +:+ post
    /\ Str.all Char.is_space pre = true /\ Str.all Char.is_space post = true
    /\ Text.first_is Char.is_space text = false
    /\ Text.last_is Char.is_space text = false
    /\ Str.strip text = text.
Proof.
  intros Hstrip Hconv.
  destruct (strip_by_split Char.is_space line)
    as (pre & post & Hline & Hpre & Hpost & Hfirst & Hlast).
  exists pre, (Str.strip line), post.
  split.
  { rewrite primary_value_ok. unfold Spec.primary_value, Spec.primary_text.
    rewrite Hstrip, Hconv. reflexivity. }
  repeat (split; [assumption |]).
  apply strip_by_fixed; assumption.
Qed.

(** X16: a text that [int] accepts is also accepted by [float], so it is
    the order of the two [try] blocks that makes the converted value an
    integer and not a float. *)
Theorem integer_literal_stays_integer (self : Py3status) (text : string) (n : Z) :
  Num.int_of_str text = Some n ->
  (exists f : pyfloat, Num.float_of_str text = Some f)
  /\ convert text self = (Return (VInt n), self, []).
Proof.
  intros Hint. split; [eexists; apply int_of_str_float_of_str, Hint |].
  rewrite convert_normalize. unfold Spec.normalize. rewrite Hint. reflexivity.
Qed.

(** X17: enabling strip-output never loses a conversion: a line that
    converts to a number untrimmed converts to the same number after
    trimming. *)
Theorem strip_keeps_conversion (self : Py3status) (line : string) (rest : list string) :
  strip_output self = true ->
  convert_numbers self = true ->
  (forall n : Z,
      Num.int_of_str line = Some n ->
      primary (line :: rest) self = (Return (VInt n), self, []))
  /\ (forall f : pyfloat,
        Num.int_of_str line = None ->
        Num.float_of_str line = Some f ->
        primary (line :: rest) self = (Return (VFloat f), self, [])).
Proof.
  intros Hstrip Hconv.
  assert (Hrun : primary (line :: rest) self
                 = (Return (Spec.normalize (Str.strip line)), self, [])).
  { rewrite primary_value_ok. unfold Spec.primary_value, Spec.primary_text.
    rewrite Hstrip, Hconv. reflexivity. }
  rewrite Hrun. unfold Spec.normalize. split.
  - intros n Hint. rewrite (int_of_str_strip _ _ Hint). reflexivity.
  - intros f Hint Hfloat. destruct (float_of_str_strip _ _ Hfloat) as [Hf Hi].
    rewrite Hi, Hint, Hf. reflexivity.
Qed.

End PipelineProperties.

(** ** The further properties at concrete inputs *)

Lemma post_config_hook_checks_witness :
  script_path pathless_instance = None
  /\ post_config_hook pathless_instance
     = (Raise (ConfigException STRING_ERROR_MISSING_PATH), pathless_instance, [])
  /\ post_config_hook (configured "json" None false None)
     = (Raise (ConfigException STRING_ERROR_INPUT_FORMAT), configured "json" None false None, [])
  /\ post_config_hook i3bar_instance = (Return tt, i3bar_instance, []).
Proof.
  split; [reflexivity |]. split; [| split].
  - destruct (post_config_hook_checks pathless_instance) as (Hmissing & _ & _).
    apply Hmissing. left. reflexivity.
  - destruct (post_config_hook_checks (configured "json" None false None)) as (_ & Hformat & _).
    apply (Hformat "/usr/bin/whoami"); (reflexivity || discriminate).
  - destruct (post_config_hook_checks i3bar_instance) as (_ & _ & Hok).
    apply (Hok "/usr/bin/whoami"); [reflexivity | discriminate | right; reflexivity].
Defined.

Lemma text_item_keys_witness :
  input_format text_instance = "text"
  /\ exists item : gmap string pyval,
      external_script (host (inl two_lines) 0) Json.loads text_instance
      = (Return (VDict item), set_output two_lines text_instance, [])
      /\ (exists text : string, item !! "full_text" = Some (VStr text))
      /\ (exists stamp : pyval, item !! "cached_until" = Some stamp)
      /\ (forall (k : string) (v : pyval),
            item !! k = Some v -> k = "full_text" \/ k = "cached_until" \/ k = "color").
Proof.
  split; [reflexivity |].
  apply (text_item_keys (host (inl two_lines) 0) Json.loads text_instance two_lines);
    reflexivity.
Defined.

Lemma text_item_color_iff_witness :
  Str.splitlines "#FF0000" = ["#FF0000"]
  /\ exists item : gmap string pyval,
      external_script (host (inl "#FF0000") 0) Json.loads text_instance
      = (Return (VDict item), set_output "#FF0000" text_instance, [])
      /\ (forall v : pyval,
            item !! "color" = Some v
            <-> exists (line1 line2 : string) (rest : list string),
                  Str.splitlines "#FF0000" = line1 :: line2 :: rest
                  /\ Spec.is_color_code line2 = true /\ v = VStr line2).
Proof.
  split; [reflexivity |].
  apply (text_item_color_iff (host (inl "#FF0000") 0) Json.loads text_instance "#FF0000");
    reflexivity.
Defined.

Lemma empty_output_item_witness :
  command_output (host (inl EmptyString) 7) (script_path text_instance) (localize text_instance)
  = inl EmptyString
  /\ external_script (host (inl EmptyString) 7) Json.loads text_instance
     = (Return
          (VDict
             (<["full_text" :=
                  VStr (safe_format (host (inl EmptyString) 7) (format text_instance)
                          (<["lines" := VInt 0]> {["output" := VStr EmptyString]}))]>
                (<["cached_until" :=
                     VFloat (FFin (now (host (inl EmptyString) 7)
                                   + cache_timeout text_instance)%Q)]> ∅))),
        set_output EmptyString text_instance, []).
Proof.
  split; [reflexivity |].
  apply (empty_output_item (host (inl EmptyString) 7) Json.loads text_instance EmptyString);
    reflexivity.
Defined.

Lemma i3bar_malformed_document_witness :
  Json.loads not_json = None
  /\ external_script (host (inl not_json) 0) Json.loads (configured "i3bar" (Some 1) false None)
     = (Raise JSONDecodeError, set_output not_json (configured "i3bar" (Some 1) false None), [])
  /\ on_click {| button := 1 |}
       (snd (fst (external_script (host (inl not_json) 0) Json.loads
                    (configured "i3bar" (Some 1) false None))))
     = (Return tt, set_output not_json (configured "i3bar" (Some 1) false None),
        [py3_notify_user not_json; py3_prevent_refresh]).
Proof.
  split; [reflexivity |].
  apply (i3bar_malformed_document (host (inl not_json) 0) Json.loads
           (configured "i3bar" (Some 1) false None) not_json {| button := 1 |});
    reflexivity.
Defined.

Lemma click_after_cycle_uses_latest_witness :
  command_output (host (inl two_lines) 0) (script_path (clickable (Some "old")))
    (localize (clickable (Some "old"))) = inl two_lines
  /\ on_click {| button := 1 |}
       (snd (fst (external_script (host (inl two_lines) 0) Json.loads (clickable (Some "old")))))
     = (Return tt, set_output two_lines (clickable (Some "old")),
        [py3_notify_user two_lines; py3_prevent_refresh]).
Proof.
  split; [reflexivity |].
  apply (click_after_cycle_uses_latest (host (inl two_lines) 0) Json.loads
           (clickable (Some "old")) two_lines {| button := 1 |}); reflexivity.
Defined.

Lemma item_uses_first_two_lines_witness :
  take 2 (Str.splitlines (three_lines "a")) = take 2 (Str.splitlines (three_lines "b"))
  /\ length (Str.splitlines (three_lines "a")) = length (Str.splitlines (three_lines "b"))
  /\ fst (fst (external_script (host (inl (three_lines "a")) 0) Json.loads text_instance))
     = fst (fst (external_script (host (inl (three_lines "b")) 0) Json.loads text_instance)).
Proof.
  split; [reflexivity |]. split; [reflexivity |].
  apply (item_uses_first_two_lines (host (inl (three_lines "a")) 0)
           (host (inl (three_lines "b")) 0) Json.loads text_instance
           (three_lines "a") (three_lines "b")); reflexivity.
Defined.

Lemma final_newline_same_item_witness :
  two_lines <> EmptyString
  /\ Text.ends_with_linebreak two_lines = false
  /\ Str.splitlines (two_lines +:+ String Char.lf EmptyString) = Str.splitlines two_lines
  /\ fst (fst (external_script (host (inl (two_lines +:+ String Char.lf EmptyString)) 0)
                 Json.loads text_instance))
     = fst (fst (external_script (host (inl two_lines) 0) Json.loads text_instance)).
Proof.
  split; [discriminate |]. split; [reflexivity |].
  apply (final_newline_same_item (host (inl two_lines) 0)
           (host (inl (two_lines +:+ String Char.lf EmptyString)) 0)
           Json.loads text_instance two_lines);
    (reflexivity || discriminate).
Defined.

Lemma printed_lines_recovered_witness :
  Text.unlines ["12"; "#FF0000"] = two_lines +:+ String Char.lf EmptyString
  /\ Str.splitlines (Text.unlines ["12"; "#FF0000"]) = ["12"; "#FF0000"]
  /\ external_script (host (inl (Text.unlines ["12"; "#FF0000"])) 0) Json.loads text_instance
     = (Return
          (VDict
             (<["full_text" :=
                  VStr (safe_format (host (inl (Text.unlines ["12"; "#FF0000"])) 0)
                          (format text_instance)
                          (<["lines" := VInt (Z.of_nat (length ["12"; "#FF0000"]))]>
                             {["output" :=
                                 Spec.primary_value text_instance ["12"; "#FF0000"]]}))]>
                (Spec.colored ["12"; "#FF0000"]
                   (<["cached_until" :=
                        VFloat (FFin (now (host (inl (Text.unlines ["12"; "#FF0000"])) 0)
                                      + cache_timeout text_instance)%Q)]> ∅)))),
        set_output (Text.unlines ["12"; "#FF0000"]) text_instance, []).
Proof.
  split; [reflexivity |].
  apply (printed_lines_recovered (host (inl (Text.unlines ["12"; "#FF0000"])) 0) Json.loads
           text_instance ["12"; "#FF0000"]);
    [repeat constructor | reflexivity | reflexivity].
Defined.

Lemma stripped_primary_text_witness :
  strip_output plain_instance = true
  /\ convert_numbers plain_instance = false
  /\ exists pre text post : string,
      primary ["  up 3 days " ] plain_instance = (Return (VStr text), plain_instance, [])
      /\ "  up 3 days " = pre +:+ text +:+ post
      /\ Str.all Char.is_space pre = true /\ Str.all Char.is_space post = true
      /\ Text.first_is Char.is_space text = false
      /\ Text.last_is Char.is_space text = false
      /\ Str.strip text = text.
Proof.
  split; [reflexivity |]. split; [reflexivity |].
  apply (stripped_primary_text plain_instance "  up 3 days " []); reflexivity.
Defined.

Lemma strip_keeps_conversion_witness :
  strip_output trimming_instance = true
  /\ convert_numbers trimming_instance = true
  /\ Num.int_of_str " 42 " = Some 42
  /\ primary [" 42 "] trimming_instance = (Return (VInt 42), trimming_instance, [])
  /\ Num.float_of_str " 3.14 " = Some (FFin (314 # 100))
  /\ primary [" 3.14 "] trimming_instance
     = (Return (VFloat (FFin (314 # 100))), trimming_instance, []).
Proof.
  split; [reflexivity |]. split; [reflexivity |]. split; [reflexivity |].
  split; [| split; [reflexivity |]].
  - apply (strip_keeps_conversion trimming_instance " 42 " []); reflexivity.
  - apply (strip_keeps_conversion trimming_instance " 3.14 " []); reflexivity.
Defined.

(** ** Padding and the numeric conversion *)

Section PaddingFacts.

Lemma separator_is_space (c : ascii) : Text.is_separator c = true -> Char.is_space c = true.
Proof. unfold Text.is_separator. intros H. apply andb_true_iff in H. apply H. Qed.

Lemma separator_not_number_space (c : ascii) :
  Text.is_separator c = true -> Char.is_number_space c = false.
Proof.
  unfold Text.is_separator. intros H. apply andb_true_iff in H.
  destruct H as [_ H]. apply negb_true_iff in H. exact H.
Qed.

Lemma last_is_weaken (p q : ascii -> bool) (s : string) :
  (forall c : ascii, p c = true -> q c = true) ->
  Text.last_is p s = true -> Text.last_is q s = true.
Proof.
  intros Hpq. induction s as [|c s IH]; [discriminate |].
  destruct s as [|c' t]; [simpl; apply Hpq |]. rewrite !last_is_cons. exact IH.
Qed.

Lemma last_is_exclusive (p q : ascii -> bool) (s : string) :
  (forall c : ascii, p c = true -> q c = false) ->
  Text.last_is p s = true -> Text.last_is q s = false.
Proof.
  intros Hpq. induction s as [|c s IH]; [discriminate |].
  destruct s as [|c' t]; [simpl; apply Hpq |]. rewrite !last_is_cons. exact IH.
Qed.

(** Stripping on the left does not touch a last character it would keep. *)
Lemma last_is_lstrip_by (p q : ascii -> bool) (s : string) :
  Text.last_is p s = false ->
  Text.last_is q (Str.lstrip_by p s) = Text.last_is q s.
Proof.
  induction s as [|c s IH]; [reflexivity |]. intros Hlast.
  change (Str.lstrip_by p (String c s)) with (if p c then Str.lstrip_by p s else String c s).
  destruct (p c) eqn:Hc; [| reflexivity].
  destruct s as [|c' t].
  - simpl in Hlast. congruence.
  - rewrite last_is_cons in Hlast. rewrite last_is_cons. apply IH, Hlast.
Qed.

(** A separator at either end of a line is still there when [int] and
    [float] have skipped their white space. *)
Lemma separator_stays (line : string) :
  Text.first_is Text.is_separator line = true \/ Text.last_is Text.is_separator line = true ->
  Text.first_is Char.is_space (Str.strip_by Char.is_number_space line) = true
  \/ Text.last_is Char.is_space (Str.strip_by Char.is_number_space line) = true.
Proof.
  unfold Str.strip_by. intros [Hfirst | Hlast].
  - left. destruct line as [|c t]; [discriminate |]. simpl in Hfirst.
    change (Str.lstrip_by Char.is_number_space (String c t))
      with (if Char.is_number_space c
            then Str.lstrip_by Char.is_number_space t else String c t).
    rewrite (separator_not_number_space _ Hfirst), rstrip_by_cons.
    rewrite (separator_not_number_space _ Hfirst). simpl.
    apply separator_is_space, Hfirst.
  - right.
    pose proof (last_is_exclusive _ _ _ separator_not_number_space Hlast) as Hnum.
    pose proof (last_is_weaken _ _ _ separator_is_space Hlast) as Hspace.
    rewrite rstrip_by_fixed by (rewrite last_is_lstrip_by; assumption).
    rewrite last_is_lstrip_by; assumption.
Qed.

(** Neither [int] nor [float] accepts a line with a separator at an end. *)
Lemma separator_blocks_parsers (line : string) :
  Text.first_is Text.is_separator line = true \/ Text.last_is Text.is_separator line = true ->
  Num.int_of_str line = None /\ Num.float_of_str line = None.
Proof.
  intros Hsep. apply separator_stays in Hsep.
  unfold Num.int_of_str, Num.float_of_str. split.
  - destruct (Num.int_body _) as [n |] eqn:Hint; [| reflexivity].
    destruct (int_body_ends _ _ Hint) as [Hfirst Hlast].
    destruct Hsep; congruence.
  - destruct (Num.float_body _) as [f |] eqn:Hfloat; [| reflexivity].
    destruct (float_body_no_space _ _ Hfloat) as [Hns _].
    destruct (no_space_ends _ Hns) as [Hfirst Hlast].
    destruct Hsep; congruence.
Qed.

(** What [primary] returns for a padded literal once trimming is enabled. *)
Lemma primary_trimmed_literal (self : Py3status) (pre literal post : string)
    (rest : list string) :
  strip_output self = true ->
  convert_numbers self = true ->
  Str.all Char.is_space pre = true ->
  Str.all Char.is_space post = true ->
  primary ((pre +:+ literal +:+ post) :: rest) self
  = (Return (Spec.normalize (Str.strip literal)), self, []).
Proof.
  intros Hstrip Hconv Hpre Hpost. rewrite primary_value_ok.
  unfold Spec.primary_value, Spec.primary_text. rewrite Hstrip, Hconv.
  unfold Str.strip. rewrite (strip_by_pad _ _ _ _ Hpre Hpost). reflexivity.
Qed.

Lemma primary_untrimmed (self : Py3status) (line : string) (rest : list string) :
  strip_output self = false ->
  convert_numbers self = true ->
  primary (line :: rest) self = (Return (Spec.normalize line), self, []).
Proof.
  intros Hstrip Hconv. rewrite primary_value_ok.
  unfold Spec.primary_value, Spec.primary_text. rewrite Hstrip, Hconv. reflexivity.
Qed.

Lemma normalize_strip_int (literal : string) (n : Z) :
  Num.int_of_str literal = Some n -> Spec.normalize (Str.strip literal) = VInt n.
Proof. intros Hint. unfold Spec.normalize. rewrite (int_of_str_strip _ _ Hint). reflexivity. Qed.

Lemma normalize_strip_float (literal : string) (f : pyfloat) :
  Num.int_of_str literal = None -> Num.float_of_str literal = Some f ->
  Spec.normalize (Str.strip literal) = VFloat f.
Proof.
  intros Hint Hfloat. unfold Spec.normalize.
  destruct (float_of_str_strip _ _ Hfloat) as [Hf Hi]. rewrite Hi, Hint, Hf. reflexivity.
Qed.

(** C5, as amended: with numeric conversion enabled, a numeric literal
    padded with the white space that [int] and [float] skip is converted to
    the number it denotes, with strip-output disabled exactly as with
    strip-output enabled. With strip-output enabled any white-space padding
    is trimmed first and the literal is converted. Only a separator 0x1c to
    0x1f at an end of the text behaves as the claim says: with strip-output
    disabled such a text is not converted and stays the original string. *)
Theorem padded_number_conversion (self : Py3status) (pre literal post : string)
    (rest : list string) :
  convert_numbers self = true ->
  (Str.all Char.is_number_space pre = true ->
   Str.all Char.is_number_space post = true ->
   (forall n : Z,
       Num.int_of_str literal = Some n ->
       primary ((pre +:+ literal +:+ post) :: rest) self = (Return (VInt n), self, []))
   /\ (forall f : pyfloat,
         Num.int_of_str literal = None ->
         Num.float_of_str literal = Some f ->
         primary ((pre +:+ literal +:+ post) :: rest) self = (Return (VFloat f), self, [])))
  /\ (strip_output self = true ->
      Str.all Char.is_space pre = true ->
      Str.all Char.is_space post = true ->
      (forall n : Z,
          Num.int_of_str literal = Some n ->
          primary ((pre +:+ literal +:+ post) :: rest) self = (Return (VInt n), self, []))
      /\ (forall f : pyfloat,
            Num.int_of_str literal = None ->
            Num.float_of_str literal = Some f ->
            primary ((pre +:+ literal +:+ post) :: rest) self
            = (Return (VFloat f), self, [])))
  /\ (strip_output self = false ->
      Text.first_is Text.is_separator (pre +:+ literal +:+ post) = true
      \/ Text.last_is Text.is_separator (pre +:+ literal +:+ post) = true ->
      primary ((pre +:+ literal +:+ post) :: rest) self
      = (Return (VStr (pre +:+ literal +:+ post)), self, [])).
Proof.
  intros Hconv.
  assert (Htrim : strip_output self = true ->
                  Str.all Char.is_space pre = true ->
                  Str.all Char.is_space post = true ->
                  (forall n : Z,
                      Num.int_of_str literal = Some n ->
                      primary ((pre +:+ literal +:+ post) :: rest) self
                      = (Return (VInt n), self, []))
                  /\ (forall f : pyfloat,
                        Num.int_of_str literal = None ->
                        Num.float_of_str literal = Some f ->
                        primary ((pre +:+ literal +:+ post) :: rest) self
                        = (Return (VFloat f), self, []))).
  { intros Hstrip Hpre Hpost.
    rewrite (primary_trimmed_literal self pre literal post rest Hstrip Hconv Hpre Hpost).
    split.
    - intros n Hint. rewrite (normalize_strip_int _ _ Hint). reflexivity.
    - intros f Hint Hfloat. rewrite (normalize_strip_float _ _ Hint Hfloat). reflexivity. }
  split; [| split; [exact Htrim |]].
  - intros Hpre Hpost. destruct (strip_output self) eqn:Hstrip.
    + apply Htrim; [reflexivity | |];
        (eapply all_weaken; [apply number_space_is_space | eassumption]).
    + rewrite (primary_untrimmed self _ rest Hstrip Hconv). unfold Spec.normalize.
      rewrite (int_of_str_pad _ _ _ Hpre Hpost), (float_of_str_pad _ _ _ Hpre Hpost).
      split.
      * intros n Hint. rewrite Hint. reflexivity.
      * intros f Hint Hfloat. rewrite Hint, Hfloat. reflexivity.
  - intros Hstrip Hsep. rewrite (primary_untrimmed self _ rest Hstrip Hconv).
    unfold Spec.normalize.
    destruct (separator_blocks_parsers _ Hsep) as [Hint Hfloat].
    rewrite Hint, Hfloat. reflexivity.
Qed.

End PaddingFacts.

Lemma padded_number_conversion_witness :
  convert_numbers text_instance = true
  /\ strip_output text_instance = false
  /\ strip_output trimming_instance = true
  /\ Num.int_of_str "42" = Some 42
  /\ primary [" " +:+ "42" +:+ " "] text_instance = (Return (VInt 42), text_instance, [])
  /\ primary [" " +:+ "42" +:+ " "] trimming_instance = (Return (VInt 42), trimming_instance, [])
  /\ primary [String (ascii_of_N 31) EmptyString +:+ "42" +:+ String (ascii_of_N 31) EmptyString]
       trimming_instance
     = (Return (VInt 42), trimming_instance, [])
  /\ Text.last_is Text.is_separator (EmptyString +:+ "42" +:+ String (ascii_of_N 31) EmptyString)
     = true
  /\ primary [EmptyString +:+ "42" +:+ String (ascii_of_N 31) EmptyString] text_instance
     = (Return (VStr (EmptyString +:+ "42" +:+ String (ascii_of_N 31) EmptyString)),
        text_instance, []).
Proof.
  do 4 (split; [reflexivity |]).
  split; [| split; [| split; [| split; [reflexivity |]]]].
  - destruct (padded_number_conversion text_instance " " "42" " " [] eq_refl)
      as (Hskip & _ & _).
    apply (Hskip eq_refl eq_refl). reflexivity.
  - destruct (padded_number_conversion trimming_instance " " "42" " " [] eq_refl)
      as (Hskip & _ & _).
    apply (Hskip eq_refl eq_refl). reflexivity.
  - destruct (padded_number_conversion trimming_instance
                (String (ascii_of_N 31) EmptyString) "42" (String (ascii_of_N 31) EmptyString)
                [] eq_refl) as (_ & Htrim & _).
    apply (Htrim eq_refl eq_refl eq_refl). reflexivity.
  - destruct (padded_number_conversion text_instance
                EmptyString "42" (String (ascii_of_N 31) EmptyString) [] eq_refl)
      as (_ & _ & Hkeep).
    apply (Hkeep eq_refl). right. reflexivity.
Defined.

(** ** The i3bar mode and the click handler against the documentation *)

(** C3: in i3bar mode two of the five options still take effect.
    [localize] reaches the command before the mode is looked at, so the
    object returned differs with it; and the click handler does not look at
    the mode, so the notification button still notifies and suppresses the
    refresh. *)
Theorem i3bar_options_still_applied :
  input_format i3bar_instance = "i3bar"
  /\ input_format unlocalized_i3bar_instance = "i3bar"
  /\ fst (fst (external_script locale_host Json.loads i3bar_instance))
     = Return (VDict {[ "full_text" := VStr "Montag" ]})
  /\ fst (fst (external_script locale_host Json.loads unlocalized_i3bar_instance))
     = Return (VDict {[ "full_text" := VStr "Monday" ]})
  /\ on_click {| button := 1 |}
       (snd (fst (external_script locale_host Json.loads clickable_i3bar)))
     = (Return tt, set_output (Json.doc_full_text "Montag") clickable_i3bar,
        [py3_notify_user (Json.doc_full_text "Montag"); py3_prevent_refresh]).
Proof.
  split; [reflexivity |]. split; [reflexivity |].
  split; [vm_compute; reflexivity |]. split; [vm_compute; reflexivity |].
  reflexivity.
Qed.

(** C9: a click on the configured notification button while no raw output
    is stored makes neither the notification call nor the suppression
    call: reading [self.output] raises [AttributeError] first. *)
Theorem click_without_output_makes_no_call :
  button_show_notification (clickable None) = Some (button {| button := 1 |})
  /\ on_click {| button := 1 |} (clickable None)
     = (Raise (AttributeError "output"), clickable None, [])
  /\ (forall raw : string,
        snd (on_click {| button := 1 |} (clickable None))
        <> [py3_notify_user raw; py3_prevent_refresh]).
Proof.
  split; [reflexivity |]. split; [reflexivity |]. intros raw. discriminate.
Qed.

(** ** The restated properties at concrete inputs *)

Lemma external_script_calls_witness :
  external_script (host (inr denied) 0) Json.loads text_instance
  = (Raise (ModuleErrorException (Some "permission denied")), text_instance,
     [py3_error (Some "permission denied")])
  /\ (forall msg : string,
        ~ In (py3_notify_user msg) [py3_error (Some "permission denied")])
  /\ ~ In py3_prevent_refresh [py3_error (Some "permission denied")]
  /\ (forall msg : option string,
        In (py3_error msg) [py3_error (Some "permission denied")] ->
        [py3_error (Some "permission denied")] = [py3_error msg]
        /\ Raise (ModuleErrorException (Some "permission denied"))
           = (Raise (ModuleErrorException msg) : outcome pyval)).
Proof.
  split; [reflexivity |].
  apply (external_script_calls (host (inr denied) 0) Json.loads text_instance
           (Raise (ModuleErrorException (Some "permission denied"))) text_instance
           [py3_error (Some "permission denied")]).
  reflexivity.
Defined.

Lemma integer_literal_stays_integer_witness :
  Num.int_of_str "-1_000" = Some (-1000)
  /\ (exists f : pyfloat, Num.float_of_str "-1_000" = Some f)
  /\ convert "-1_000" text_instance = (Return (VInt (-1000)), text_instance, []).
Proof.
  split; [reflexivity |].
  apply (integer_literal_stays_integer text_instance "-1_000" (-1000)). reflexivity.
Defined.
